(** * Crystal Clear Audio Compressor: bulk pipeline

    A shallow embedding of [src/utils/compressor.py]
    (class [CrystalClearCompressor]) and the properties of its naming
    resolver, transcode invoker, single-item processor and bulk
    orchestrator.

    Conventions of the embedding.
    - A Python [str] is a [string]; every character stands for one code
      point below 256.  On that range the regular-expression class [\d]
      is exactly the ten ASCII digits and [[A-Za-z]] the ASCII letters.
    - Paths follow [posixpath] and pattern matching is case-sensitive, as
      on Linux and macOS.
    - The file system, the external programs [ffmpeg] and [ffprobe], and
      the scheduling of the thread pool are not part of the program: they
      are supplied by a record [Env] of oracles, and every theorem
      quantifies over it.
    - A Python [float] is kept as the exact rational it rounds. *)

From Stdlib Require Import ZArith QArith Ascii.
From stdpp Require Import base strings list gmap pretty.

Open Scope Z_scope.

(** ** Strings *)

Module Str.

(** [s.startswith(p)] *)
Fixpoint startswith (p s : string) : bool :=
  match p, s with
  | "", _ => true
  | String a p', String b s' => Ascii.eqb a b && startswith p' s'
  | String _ _, "" => false
  end.

(** [s.endswith(p)] *)
Fixpoint endswith (p s : string) : bool :=
  String.eqb s p ||
  match s with
  | "" => false
  | String _ s' => endswith p s'
  end.

(** [c in s] for a single character [c] *)
Fixpoint contains (c : ascii) (s : string) : bool :=
  match s with
  | "" => false
  | String b s' => Ascii.eqb b c || contains c s'
  end.

(** [s.replace(old, new)] for a non-empty [old]: the occurrences of [old]
    are found scanning left to right and do not overlap.  [skip] counts
    the characters of the current occurrence still to be passed over. *)
Fixpoint replace_from (old new : string) (skip : nat) (s : string) : string :=
  match s with
  | "" => ""
  | String c s' =>
      match skip with
      | S k => replace_from old new k s'
      | O =>
          if startswith old s
          then new +:+ replace_from old new (String.length old - 1) s'
          else String c (replace_from old new 0 s')
      end
  end.

Definition replace (old new s : string) : string := replace_from old new 0 s.

Fixpoint drop (n : nat) (s : string) : string :=
  match n, s with
  | O, _ => s
  | S k, String _ s' => drop k s'
  | S _, "" => ""
  end.

Definition newline : ascii := "010"%char.

Definition is_ascii_letter (c : ascii) : bool :=
  let n := nat_of_ascii c in
  ((65 <=? n)%nat && (n <=? 90)%nat) || ((97 <=? n)%nat && (n <=? 122)%nat).

Definition is_digit (c : ascii) : bool :=
  let n := nat_of_ascii c in (48 <=? n)%nat && (n <=? 57)%nat.

(** the longest leading run of characters satisfying [f] *)
Fixpoint span (f : ascii → bool) (s : string) : string :=
  match s with
  | "" => ""
  | String c s' => if f c then String c (span f s') else ""
  end.

(** what is left after that run *)
Fixpoint skip (f : ascii → bool) (s : string) : string :=
  match s with
  | "" => ""
  | String c s' => if f c then skip f s' else s
  end.

Fixpoint all (f : ascii → bool) (s : string) : bool :=
  match s with
  | "" => true
  | String c s' => f c && all f s'
  end.

End Str.

(** ** Regular expressions used by the naming resolver *)

Module Re.

(** [re.match(r'([A-Za-z]+)', s)]: [Some] of group 1, the greedy run of
    letters at the start of [s], or [None] when [s] starts with no
    letter. *)
Definition match_letters (s : string) : option string :=
  match Str.span Str.is_ascii_letter s with
  | "" => None
  | g => Some g
  end.

(** The anchor [$] (without [re.MULTILINE]) holds at the end of the string
    and just before a newline that is the last character. *)
Definition at_dollar (rest : string) : bool :=
  match rest with
  | "" => true
  | String c "" => Ascii.eqb c Str.newline
  | _ => false
  end.

(** [re.sub(r'\d+$', '', s)].  The scan tries each position from the left;
    at a digit, [\d+] takes the whole run of digits (a shorter run is
    followed by a digit, where [$] cannot hold) and the match succeeds
    when [$] holds after it.  What follows a match is empty or a single
    newline, so the scan ends there. *)
Fixpoint sub_digits_dollar (s : string) : string :=
  match s with
  | "" => ""
  | String c s' =>
      if Str.is_digit c && at_dollar (Str.skip Str.is_digit s')
      then Str.skip Str.is_digit s'
      else String c (sub_digits_dollar s')
  end.

End Re.

(** ** [posixpath] and [glob] *)

Module Path.

(** [os.path.join(a, b)] *)
Definition join (a b : string) : string :=
  if Str.startswith "/" b then b
  else if String.eqb a "" || Str.endswith "/" a then a +:+ b
  else a +:+ "/" +:+ b.

(** [os.path.basename(p)]: what follows the last slash *)
Fixpoint basename (p : string) : string :=
  match p with
  | "" => ""
  | String c p' =>
      if Str.contains "/" p' then basename p'
      else if Ascii.eqb c "/" then p' else p
  end.

(** [p[:p.rfind('/') + 1]]: up to and including the last slash *)
Fixpoint head_upto_slash (p : string) : string :=
  match p with
  | "" => ""
  | String c p' =>
      if Str.contains "/" p' then String c (head_upto_slash p')
      else if Ascii.eqb c "/" then "/" else ""
  end.

(** [s.rstrip('/')] *)
Fixpoint rstrip_slash (s : string) : string :=
  match s with
  | "" => ""
  | String c s' =>
      match rstrip_slash s' with
      | "" => if Ascii.eqb c "/" then "" else String c ""
      | r => String c r
      end
  end.

(** [os.path.split(p)] *)
Definition split (p : string) : string * string :=
  let head := head_upto_slash p in
  let head' :=
    if negb (String.eqb head "") && negb (Str.all (Ascii.eqb "/") head)
    then rstrip_slash head else head in
  (head', basename p).

End Path.

(** [glob.glob] for the two patterns the program uses: a directory,
    followed by [*] and a literal suffix.  Which directories a directory
    part with pattern characters matches depends on the whole file system;
    that expansion is taken from the outside, as [match_dirs]. *)
Module Glob.

(** [glob.has_magic]: one of the characters [*], [?] and [[] occurs *)
Definition has_magic (s : string) : bool :=
  Str.contains "*" s || Str.contains "?" s || Str.contains "[" s.

(** [glob._ishidden]: the name starts with a dot *)
Definition ishidden (name : string) : bool := Str.startswith "." name.

(** [fnmatch] of a name against a pattern [*suffix]; a pattern without a
    leading star matches itself only. *)
Definition fnmatch (name pat : string) : bool :=
  match pat with
  | String "*" suffix => Str.endswith suffix name
  | _ => String.eqb name pat
  end.

(** [glob._glob1]: the entries of the directory, without the hidden ones
    unless the pattern itself starts with a dot, filtered by the pattern;
    the order is the one of the directory listing. *)
Definition glob1 (entries : list string) (pat : string) : list string :=
  let names :=
    if ishidden pat then entries
    else List.filter (λ x, negb (ishidden x)) entries in
  List.filter (λ x, fnmatch x pat) names.

(** [glob.glob(pathname)] for a path name whose last component is a
    pattern, given the listing of every directory and, for a directory part
    that is itself a pattern, the directories it matches
    ([glob._iglob(dirname, ..., dironly=True)]).  A directory part without
    pattern characters is taken as it is. *)
Definition glob (scandir : string → list string) (match_dirs : string → list string)
    (pathname : string) : list string :=
  let '(dirname, pat) := Path.split pathname in
  if String.eqb dirname "" then glob1 (scandir dirname) pat
  else
    let dirs :=
      if negb (String.eqb dirname pathname) && has_magic dirname
      then match_dirs dirname
      else [dirname] in
    concat ((λ dir, Path.join dir <$> glob1 (scandir dir) pat) <$> dirs).

End Glob.

(** ** Naming resolver *)

(** [CrystalClearCompressor.extract_base_name] *)
Definition extract_base_name (filename : string) : string :=
  let name_without_ext := Str.replace ".m4a" "" (Str.replace ".mp3" "" filename) in
  match Re.match_letters name_without_ext with
  | Some group1 => group1
  | None => Re.sub_digits_dollar name_without_ext
  end.

(** The naming rules as the specification words them: the extension is
    removed as a suffix, then the leading letters are taken, or else the
    trailing digits are dropped; in the output name only the extension
    [.m4a] is mapped to [.mp3]. *)
Module NamingSpec.

(** [s] without its last [n] characters *)
Definition drop_end (n : nat) (s : string) : string :=
  String.rev (Str.drop n (String.rev s)).

Definition strip_suffix (ext s : string) : string :=
  if Str.endswith ext s then drop_end (String.length ext) s else s.

Definition strip_extension (filename : string) : string :=
  if Str.endswith ".mp3" filename then strip_suffix ".mp3" filename
  else strip_suffix ".m4a" filename.

Definition strip_trailing_digits (s : string) : string :=
  String.rev (Str.skip Str.is_digit (String.rev s)).

Definition base_name (filename : string) : string :=
  let stem := strip_extension filename in
  match Str.span Str.is_ascii_letter stem with
  | "" => strip_trailing_digits stem
  | letters => letters
  end.

Definition remap_extension (filename : string) : string :=
  if Str.endswith ".m4a" filename
  then strip_suffix ".m4a" filename +:+ ".mp3"
  else filename.

Definition output_path (source_dir filename : string) : string :=
  Path.join (Path.join source_dir (extract_base_name filename))
            (remap_extension filename).

End NamingSpec.

(** ** Tasks *)

(** The tuple [(input_file, output_file, filename, file_index, total_files)] *)
Record Task := mkTask {
  input_file : string;
  output_file : string;
  filename : string;
  file_index : nat;
  total_files : nat;
}.

(** [CrystalClearCompressor.get_mp3_files] *)
Definition get_mp3_files (scandir : string → list string)
    (match_dirs : string → list string) (directory : string) : list string :=
  let mp3_files := Glob.glob scandir match_dirs (Path.join directory "*.mp3") in
  let m4a_files := Glob.glob scandir match_dirs (Path.join directory "*.m4a") in
  mp3_files ++ m4a_files.

(** The body of the loop that prepares one task in [bulk_compress] *)
Definition make_task (source_directory : string) (total : nat)
    (i : nat) (input_file : string) : Task :=
  let filename := Path.basename input_file in
  let base_name := extract_base_name filename in
  let output_dir := Path.join source_directory base_name in
  let output_file := Path.join output_dir (Str.replace ".m4a" ".mp3" filename) in
  mkTask input_file output_file filename i total.

(** [enumerate(audio_files, 1)] *)
Definition enumerate1 {A} (l : list A) : list (nat * A) :=
  imap (λ i x, (S i, x)) l.

Definition file_tasks (source_directory : string) (audio_files : list string) : list Task :=
  (λ ix, make_task source_directory (length audio_files) ix.1 ix.2)
    <$> enumerate1 audio_files.

(** ** Python values and dictionaries *)

#[warnings="-register-all"]
Inductive pyval :=
| PyNone
| PyBool (b : bool)
| PyInt (n : Z)
| PyFloat (q : Q)
| PyStr (s : string)
| PyDict (d : gmap string pyval).

Abbreviation dict := (gmap string pyval).

(** [v == s] for a string literal [s] *)
Definition py_eq_str (v : pyval) (s : string) : bool :=
  match v with
  | PyStr t => String.eqb t s
  | _ => false
  end.

(** truth value of a Python object, as [if v] and [v if v else w] take it *)
Definition py_truthy (v : pyval) : bool :=
  match v with
  | PyNone => false
  | PyBool b => b
  | PyInt n => negb (n =? 0)
  | PyFloat q => negb (Qeq_bool q 0)
  | PyStr s => negb (String.eqb s "")
  | PyDict d => negb (Nat.eqb (size d) 0)
  end.

(** [d.get(k, default)] *)
Definition dict_get (d : dict) (k : string) (dflt : pyval) : pyval :=
  default dflt (d !! k).

(** ** The outside world *)

(** One line written to standard output by [process_single_file]; the
    decorative glyph that starts some of the messages is left out. *)
Inductive line :=
| LHeader (file_index total_files : nat) (filename : string)
    (* [i/n] filename *)
| LBaseName (base_name : string)            (* Base name: ... *)
| LOutput (base_name out_name : string)     (* Output: base/name *)
| LSkippedExists                            (* Skipped (already exists) *)
| LSkippedNotFound                          (* Skipped: Input file not found *)
| LSkippedEmpty                             (* Skipped: Empty file (0 bytes) *)
| LCompressed                               (* Compressed successfully! *)
| LSize (input_size output_size : pyval)    (* Size: ... -> ... *)
| LCompression (ratio : pyval)              (* Compression: ...x *)
| LDeleted                                  (* Deleted source file *)
| LWarnGone                                 (* Warning: Source file no longer exists *)
| LWarnNotDeleted (path err : string)       (* Warning: Could not delete source file *)
| LSkipped (err : pyval)                    (* Skipped: ... *)
| LFailed (err : pyval)                     (* Failed: ... *)
| LContinuing                               (* Continuing with next file... *)
| LBlank.

(** What the program does to the outside, in the order it does it *)
Inductive event :=
| EvProbe (path : string)            (* ffprobe is run on the file *)
| EvMkdir (output : string)          (* the parent of [output] is created *)
| EvEncode (cmd : list string)       (* ffmpeg is run *)
| EvRemove (path : string)           (* os.remove is called *)
| EvPrint (l : line).

(** The files that exist, with their size in bytes, and the events so far *)
Record World := mkWorld {
  fs : gmap string Z;
  trace : list event;
}.

Inductive exn :=
| OSError (msg : string)
| KeyError (key : string)
| ValueError (msg : string).

(** [str(e)] *)
Definition exn_str (e : exn) : string :=
  match e with
  | OSError msg => msg
  | KeyError key => "'" +:+ key +:+ "'"
  | ValueError msg => msg
  end.

Inductive res (A : Type) :=
| Ret (a : A)
| Raise (e : exn).
Arguments Ret {A} a.
Arguments Raise {A} e.

(** A future of the thread pool, once done: the task it ran and what
    [future.result()] gives *)
Definition Future : Type := Task * res dict.

(** What a started process reports, or the [OSError] of a call that could
    not be carried out *)
Inductive launch (A : Type) :=
| Started (a : A)
| Refused (msg : string).
Arguments Started {A} a.
Arguments Refused {A} msg.

Record Env := mkEnv {
  (** names of the entries of a directory, in the order the system lists them *)
  scandir : string → list string;
  (** the directories that a path with pattern characters matches, as
      [glob] finds them *)
  glob_dirs : string → list string;
  (** [ffprobe] on a file: return code and standard output *)
  ffprobe : string → gmap string Z → launch (Z * string);
  (** [json.loads]; [None] stands for [JSONDecodeError] *)
  json_loads : string → option pyval;
  (** [Path(output).parent.mkdir(parents=True, exist_ok=True)] *)
  mkdir_parent : string → gmap string Z → launch (gmap string Z);
  (** [ffmpeg] on a command line: return code, standard error, seconds
      taken and the files afterwards *)
  ffmpeg : list string → gmap string Z → launch (Z * string * Q * gmap string Z);
  (** the [OSError] with which [os.remove] refuses a path, if it does *)
  remove_refused : string → gmap string Z → option string;
  (** what other workers and programs do to the files between the checks of
      [process_single_file] and its call of [compress_audio] *)
  interfere : gmap string Z → gmap string Z;
  (** the order in which the futures complete *)
  as_completed : list Future → list Future;
  (** [repr] of a command line and of a signal number, for the text of
      [CalledProcessError] *)
  repr_cmd : list string → string;
  repr_signal : Z → string;
}.

(** ** Computations with effects *)

Definition M (A : Type) : Type := World → res A * World.

#[export] Instance M_ret : MRet M := λ A a w, (Ret a, w).

#[export] Instance M_bind : MBind M := λ A B k m w,
  match m w with
  | (Ret a, w') => k a w'
  | (Raise e, w') => (Raise e, w')
  end.

Definition raise {A} (e : exn) : M A := λ w, (Raise e, w).

(** [try: m except OSError as e: h e] *)
Definition try_OSError {A} (m : M A) (h : string → M A) : M A := λ w,
  match m w with
  | (Raise (OSError msg), w') => h msg w'
  | r => r
  end.

Definition emit (e : event) : M unit := λ w,
  (Ret (), mkWorld (fs w) (trace w ++ [e])).

Definition print (l : line) : M unit := emit (EvPrint l).

Definition set_fs (f : gmap string Z) : M unit := λ w,
  (Ret (), mkWorld f (trace w)).

Definition get_fs : M (gmap string Z) := λ w, (Ret (fs w), w).

Definition of_launch {A} (l : launch A) : M A :=
  match l with
  | Started a => mret a
  | Refused msg => raise (OSError msg)
  end.

(** [os.path.exists] *)
Definition path_exists (p : string) : M bool :=
  f ← get_fs; mret (bool_decide (is_Some (f !! p))).

(** [os.path.getsize] *)
Definition getsize (p : string) : M Z :=
  f ← get_fs;
  match f !! p with
  | Some n => mret n
  | None => raise (OSError ("[Errno 2] No such file or directory: '" +:+ p +:+ "'"))
  end.

(** [d[k]] *)
Definition getitem (d : dict) (k : string) : M pyval :=
  match d !! k with
  | Some v => mret v
  | None => raise (KeyError k)
  end.

(** The dictionary [results] of [bulk_compress] *)
Module Results.
Record t := mk {
  total_files : nat;
  processed : Z;
  skipped : Z;
  failed : Z;
  errors : list dict;
}.
End Results.

(** What [bulk_compress] returns: the dictionary with the single key
    [error], or [results] *)
Inductive bulk_result :=
| BulkError (d : dict)
| BulkReport (results : Results.t).

(** ** The program *)

Section Program.

Context (env : Env).

(** [self.ffmpeg_options] *)
Definition ffmpeg_options : list string :=
  ["-ac"; "1"; "-q:a"; "3"; "-ar"; "22050"; "-af";
   "highpass=f=80,afftdn=nf=-25,equalizer=f=2500:t=h:w=800:g=2"].

(** [CrystalClearCompressor.get_audio_info] *)
Definition get_audio_info (file_path : string) : M pyval :=
  emit (EvProbe file_path);;
  f ← get_fs;
  result ← of_launch (ffprobe env file_path f);
  if negb (result.1 =? 0) then mret PyNone
  else match json_loads env result.2 with
       | Some v => mret v
       | None => mret PyNone
       end.

(** [str(e)] for the [CalledProcessError] of [subprocess.run(check=True)] *)
Definition CalledProcessError_str (cmd : list string) (returncode : Z) : string :=
  if returncode <? 0
  then "Command '" +:+ repr_cmd env cmd +:+ "' died with "
         +:+ repr_signal env (- returncode) +:+ "."
  else "Command '" +:+ repr_cmd env cmd +:+ "' returned non-zero exit status "
         +:+ pretty returncode +:+ ".".

(** [os.remove] *)
Definition os_remove (p : string) : M unit :=
  emit (EvRemove p);;
  f ← get_fs;
  match remove_refused env p f with
  | Some msg => raise (OSError msg)
  | None =>
      match f !! p with
      | Some _ => set_fs (delete p f)
      | None => raise (OSError ("[Errno 2] No such file or directory: '" +:+ p +:+ "'"))
      end
  end.

(** [CrystalClearCompressor.compress_audio] with [verbose=False], as
    [process_single_file] calls it and as [main] does under [--quiet] *)
Definition compress_audio (input_file output_file : string)
    (delete_source : bool) : M (bool * dict) :=
  input_exists ← path_exists input_file;
  if negb input_exists then
    mret (false, {[ "error" := PyStr ("Input file not found: " +:+ input_file) ]})
  else
  input_size ← getsize input_file;
  if input_size =? 0 then
    mret (false,
          {[ "error" := PyStr ("Input file is empty (0 bytes): " +:+ input_file);
             "skip" := PyBool true ]})
  else
  input_info ← get_audio_info input_file;
  emit (EvMkdir output_file);;
  f ← get_fs;
  f ← of_launch (mkdir_parent env output_file f);
  set_fs f;;
  let cmd := ["ffmpeg"; "-y"; "-i"; input_file] ++ ffmpeg_options ++ [output_file] in
  emit (EvEncode cmd);;
  f ← get_fs;
  '(returncode, stderr, processing_time, f) ← of_launch (ffmpeg env cmd f);
  set_fs f;;
  if negb (returncode =? 0) then
    let error_msg :=
      if negb (String.eqb stderr "") then stderr
      else CalledProcessError_str cmd returncode in
    mret (false,
          {[ "error" := PyStr error_msg;
             "processing_time" := PyFloat processing_time ]})
  else
  output_exists ← path_exists output_file;
  if output_exists : bool then
    output_size ← getsize output_file;
    output_info ← get_audio_info output_file;
    let compression_ratio :=
      if 0 <? output_size
      then PyFloat (inject_Z input_size / inject_Z output_size)
      else PyInt 0 in
    let info : dict :=
      {[ "success" := PyBool true;
         "input_size" := PyInt input_size;
         "output_size" := PyInt output_size;
         "compression_ratio" := compression_ratio;
         "processing_time" := PyFloat processing_time;
         "output_info" := output_info ]} in
    (if delete_source then
       try_OSError
         (still_there ← path_exists input_file;
          if still_there : bool then os_remove input_file else mret ())
         (λ _, mret ())
     else mret ());;
    mret (true, info)
  else
    mret (false, {[ "error" := PyStr "Output file was not created" ]}).

(** Other actors change the files *)
Definition yield : M unit :=
  f ← get_fs; set_fs (interfere env f).

(** [CrystalClearCompressor.process_single_file] *)
Definition process_single_file (file_info : Task) : M dict :=
  let '(mkTask input_file output_file filename file_index total_files) := file_info in
  let base_name := extract_base_name filename in
  output_exists ← path_exists output_file;
  if output_exists : bool then
    print (LHeader file_index total_files filename);;
    print (LBaseName base_name);;
    print (LOutput base_name (Path.basename output_file));;
    print LSkippedExists;;
    print LBlank;;
    mret {[ "status" := PyStr "skipped"; "file" := PyStr filename ]}
  else
  input_exists ← path_exists input_file;
  if negb input_exists then
    print (LHeader file_index total_files filename);;
    print (LBaseName base_name);;
    print LSkippedNotFound;;
    print LBlank;;
    mret {[ "status" := PyStr "skipped"; "file" := PyStr filename;
            "error" := PyStr "Input file not found" ]}
  else
  input_size ← getsize input_file;
  if input_size =? 0 then
    print (LHeader file_index total_files filename);;
    print (LBaseName base_name);;
    print LSkippedEmpty;;
    print LBlank;;
    mret {[ "status" := PyStr "skipped"; "file" := PyStr filename;
            "error" := PyStr "Empty file" ]}
  else
  yield;;
  '(success, info) ← compress_audio input_file output_file false;
  print (LHeader file_index total_files filename);;
  print (LBaseName base_name);;
  print (LOutput base_name (Path.basename output_file));;
  if success : bool then
    print LCompressed;;
    size_in ← getitem info "input_size";
    size_out ← getitem info "output_size";
    print (LSize size_in size_out);;
    ratio ← getitem info "compression_ratio";
    print (LCompression ratio);;
    try_OSError
      (still_there ← path_exists input_file;
       if still_there : bool then os_remove input_file;; print LDeleted
       else print LWarnGone)
      (λ e, print (LWarnNotDeleted input_file e));;
    print LBlank;;
    mret {[ "status" := PyStr "success"; "file" := PyStr filename;
            "info" := PyDict info ]}
  else
    if py_truthy (dict_get info "skip" (PyBool false)) then
      print (LSkipped (dict_get info "error" (PyStr "Unknown error")));;
      print LBlank;;
      mret {[ "status" := PyStr "skipped"; "file" := PyStr filename;
              "error" := dict_get info "error" (PyStr "Unknown error") ]}
    else
      print (LFailed (dict_get info "error" (PyStr "Unknown error")));;
      print LContinuing;;
      print LBlank;;
      mret {[ "status" := PyStr "failed"; "file" := PyStr filename;
              "error" := dict_get info "error" (PyStr "Unknown error") ]}.

End Program.

Section Bulk.

Context (env : Env).

(** The thread pool: every task is submitted and run once by
    [process_single_file]; an exception of the worker stays in its
    future.  The workers are run one after the other in the order of
    submission, each on the files the earlier ones left. *)
Fixpoint run_tasks (tasks : list Task) (w : World) : list Future * World :=
  match tasks with
  | [] => ([], w)
  | task :: rest =>
      let '(r, w1) := process_single_file env task w in
      let '(futures, w2) := run_tasks rest w1 in
      ((task, r) :: futures, w2)
  end.

(** The clause [except Exception as e] of the aggregation loop *)
Definition unexpected_error (results : Results.t) (task : Task) (e : exn) : Results.t :=
  Results.mk
    (Results.total_files results)
    (Results.processed results)
    (Results.skipped results)
    (Results.failed results + 1)
    (Results.errors results ++
       [ {[ "file" := PyStr (filename task);
            "error" := PyStr ("Unexpected error: " +:+ exn_str e) ]} ]).

(** The body of the loop [for future in as_completed(future_to_file)] *)
Definition aggregate (results : Results.t) (future : Future) : Results.t :=
  let '(task, outcome) := future in
  match outcome with
  | Raise e => unexpected_error results task e
  | Ret result =>
      match result !! "status" with
      | None => unexpected_error results task (KeyError "status")
      | Some status =>
          if py_eq_str status "success" then
            Results.mk (Results.total_files results) (Results.processed results + 1)
              (Results.skipped results) (Results.failed results) (Results.errors results)
          else if py_eq_str status "skipped" then
            Results.mk (Results.total_files results) (Results.processed results)
              (Results.skipped results + 1) (Results.failed results) (Results.errors results)
          else if py_eq_str status "failed" then
            let results1 :=
              Results.mk (Results.total_files results) (Results.processed results)
                (Results.skipped results) (Results.failed results + 1)
                (Results.errors results) in
            match result !! "file" with
            | None => unexpected_error results1 task (KeyError "file")
            | Some file =>
                match result !! "error" with
                | None => unexpected_error results1 task (KeyError "error")
                | Some error =>
                    Results.mk (Results.total_files results1) (Results.processed results1)
                      (Results.skipped results1) (Results.failed results1)
                      (Results.errors results1 ++
                         [ {[ "file" := file; "error" := error ]} ])
                end
            end
          else results
      end
  end.

(** [CrystalClearCompressor.bulk_compress]; the banner and the summary it
    prints when [verbose] do not enter the returned dictionary and are
    left out.  [ThreadPoolExecutor] refuses a pool without workers. *)
Definition bulk_compress (source_directory : string) (max_workers : Z) : M bulk_result :=
  let audio_files := get_mp3_files (scandir env) (glob_dirs env) source_directory in
  match audio_files with
  | [] => mret (BulkError {[ "error" := PyStr "No MP3 or M4A files found in the directory" ]})
  | _ =>
      let results := Results.mk (length audio_files) 0 0 0 [] in
      let tasks := file_tasks source_directory audio_files in
      if max_workers <=? 0 then raise (ValueError "max_workers must be greater than 0")
      else
        futures ← (λ w, let '(fs, w') := run_tasks tasks w in (Ret fs, w'));
        mret (BulkReport (foldl aggregate results (as_completed env futures)))
  end.

End Bulk.

(** ** The command line *)

(** [c.lower()] for a code point below 256: the ASCII capitals and the
    capitals of Latin-1 (all of 192..222 but the multiplication sign) *)
Definition lower_char (c : ascii) : ascii :=
  let n := nat_of_ascii c in
  if ((65 <=? n)%nat && (n <=? 90)%nat)
     || ((192 <=? n)%nat && (n <=? 222)%nat && negb (n =? 215)%nat)
  then ascii_of_nat (n + 32) else c.

(** [s.lower()] *)
Fixpoint str_lower (s : string) : string :=
  match s with
  | "" => ""
  | String c s' => String (lower_char c) (str_lower s')
  end.

(** What [argparse] hands to [main] *)
Record Args := mkArgs {
  arg_input_file : option string;
  arg_output_file : option string;
  arg_quiet : bool;
  arg_bulk_compress : bool;
  arg_source_dir : option string;
  arg_workers : Z;
}.

(** How [subprocess.run(['ffmpeg', '-version'])] ends *)
Inductive version_probe :=
| VersionExit (returncode : Z)
| VersionNotFound                  (* FileNotFoundError *)
| VersionOSError (msg : string).   (* any other OSError *)

(** The terminal [main] runs in *)
Record Console := mkConsole {
  ffmpeg_version : version_probe;
  (** [os.getcwd()] *)
  getcwd : string;
  (** what the user types at the prompt of [input] *)
  input_answer : string;
}.

(** [CrystalClearCompressor.check_ffmpeg] *)
Definition check_ffmpeg (console : Console) : res bool :=
  match ffmpeg_version console with
  | VersionExit returncode => Ret (returncode =? 0)
  | VersionNotFound => Ret false
  | VersionOSError msg => Raise (OSError msg)
  end.

(** One line written by [main] itself; the leading glyph of a message is
    left out. *)
Inductive main_line :=
| MText (text : string)
| MError (err : pyval)                        (* Error: ... *)
| MInputNotFound (path : string)              (* Error: Input file '...' not found! *)
| MPrompt                                     (* Continue anyway? (y/N): *)
| MCompressed (input output : string)         (* Compressed: ... -> ... *)
| MSizes (input_size output_size ratio : pyval)
    (* Size: ... -> ... (...x compression) *)
| MDeleted (path : string)                    (* Deleted source file: ... *)
| MWarnGone (path : string)                   (* Warning: Source file no longer exists: ... *)
| MWarnNotDeleted (path err : string)         (* Warning: Could not delete source file '...': ... *)
| MFailed (err : pyval).                      (* Compression failed: ... *)

Definition ffmpeg_missing_lines : list main_line :=
  [MText "Error: ffmpeg not found!";
   MText "Please install ffmpeg first:";
   MText "  macOS: brew install ffmpeg";
   MText "  Ubuntu: sudo apt install ffmpeg";
   MText "  Windows: Download from https://ffmpeg.org/"].

Definition missing_arguments_lines : list main_line :=
  [MText "Error: Both input_file and output_file are required for single file compression";
   MText "Use --bulk-compress for processing all files, or provide both input and output files"].

Definition extension_warning : main_line :=
  MText "Warning: Output file should have .mp3 extension".

(** [args.x] as a condition: [None] and the empty string are false *)
Definition given (x : option string) : option string :=
  match x with
  | Some s => if String.eqb s "" then None else Some s
  | None => None
  end.

(** [main] after [parse_args]: the exit status of the process and the lines
    [main] itself printed, in order.  The result is [None] where the run
    goes on into [compress_audio] with [verbose=True], which is not
    modelled; the banner and the summary that [bulk_compress] prints when
    [verbose] are not in the list. *)
Definition main (env : Env) (console : Console) (args : Args)
    : M (option (Z * list main_line)) :=
  match check_ffmpeg console with
  | Raise e => raise e
  | Ret false => mret (Some (1, ffmpeg_missing_lines))
  | Ret true =>
      if arg_bulk_compress args then
        let source_dir := default (getcwd console) (given (arg_source_dir args)) in
        let max_workers := arg_workers args in
        if (max_workers <? 1) || (8 <? max_workers) then
          mret (Some (1, [MText "Error: Number of workers must be between 1 and 8"]))
        else
          results ← bulk_compress env source_dir max_workers;
          match results with
          | BulkError d =>
              match d !! "error" with
              | Some err => mret (Some (1, [MError err]))
              | None => mret (Some (0, []))
              end
          | BulkReport _ => mret (Some (0, []))
          end
      else
        match given (arg_input_file args), given (arg_output_file args) with
        | Some input_file, Some output_file =>
            input_exists ← path_exists input_file;
            if negb input_exists then mret (Some (1, [MInputNotFound input_file]))
            else
            let asked := negb (Str.endswith ".mp3" (str_lower output_file)) in
            let said := if asked then [extension_warning; MPrompt] else [] in
            if asked && negb (String.eqb (str_lower (input_answer console)) "y") then
              mret (Some (0, said))
            else
            if negb (arg_quiet args) then mret None
            else
            '(success, info) ← compress_audio env input_file output_file true;
            if success : bool then
              size_in ← getitem info "input_size";
              size_out ← getitem info "output_size";
              ratio ← getitem info "compression_ratio";
              deletion ←
                try_OSError
                  (still_there ← path_exists input_file;
                   if still_there : bool
                   then os_remove env input_file;; mret [MDeleted input_file]
                   else mret [MWarnGone input_file])
                  (λ e, mret [MWarnNotDeleted input_file e]);
              mret (Some (0, said ++ [MCompressed input_file output_file;
                                      MSizes size_in size_out ratio] ++ deletion))
            else
              mret (Some (1, said ++ [MFailed (dict_get info "error" (PyStr "Unknown error"))]))
        | _, _ => mret (Some (1, missing_arguments_lines))
        end
  end.

(** ** Notions used to state the properties *)

(** The directory that [glob] lists for a pattern placed in [directory] *)
Definition search_dir (directory : string) : string :=
  (Path.split (Path.join directory "")).1.

(** The path under which [glob] returns an entry of that directory *)
Definition found_path (directory name : string) : string :=
  if String.eqb (search_dir directory) "" then name
  else Path.join (search_dir directory) name.

(** The entries that are not hidden and end in [suffix], in listing order *)
Definition visible_with_suffix (suffix : string) (entries : list string) : list string :=
  List.filter (λ x, negb (Glob.ishidden x) && Str.endswith suffix x) entries.

(** ** Concrete directories, files and environments for the examples *)

Definition listing_hidden (_ : string) : list string :=
  ["b.m4a"; ".notes.mp3"; "a.mp3"; "c.MP3"].

(** The directory [d[1]] holds [a.mp3] and its sibling [d1] holds [z.mp3];
    as a pattern, [d[1]] matches [d1]. *)
Definition listing_brackets (dir : string) : list string :=
  if String.eqb dir "d1" then ["z.mp3"]
  else if String.eqb dir "d[1]" then ["a.mp3"]
  else [].

Definition match_brackets (pattern : string) : list string :=
  if String.eqb pattern "d[1]" then ["d1"] else [].

(** The paths handed to [os.remove] and the command lines of [ffmpeg] among
    some events *)
Definition removals (evs : list event) : list string :=
  omap (λ e, match e with EvRemove p => Some p | _ => None end) evs.

Definition encodings (evs : list event) : list (list string) :=
  omap (λ e, match e with EvEncode cmd => Some cmd | _ => None end) evs.

(** The events a computation adds when it is run in [w] *)
Definition events_of {A} (m : M A) (w : World) : list event :=
  drop (length (trace w)) (trace (m w).2).

Definition listing_talks (_ : string) : list string :=
  ["Talk1.mp3"; "Talk2.mp3"; "Talk3.m4a"].

(** An encoder that writes 1000 bytes to its last argument *)
Definition encoder_ok (cmd : list string) (f : gmap string Z)
    : launch (Z * string * Q * gmap string Z) :=
  match last cmd with
  | Some out => Started (0, "", 2 # 1, <[out := 1000]> f)
  | None => Refused "ffmpeg: no output given"
  end.

(** An encoder that fails with a message *)
Definition encoder_fails (cmd : list string) (f : gmap string Z)
    : launch (Z * string * Q * gmap string Z) :=
  Started (1, "Invalid data found when processing input", 1 # 1, f).

(** An encoder that exits with 0 and writes nothing *)
Definition encoder_silent (cmd : list string) (f : gmap string Z)
    : launch (Z * string * Q * gmap string Z) :=
  Started (0, "", 1 # 1, f).

(** An environment around an encoder: [ffprobe] prints text that does not
    parse, directories can be created, [os.remove] answers [refusal], nobody
    else touches the files, and the futures complete in reverse order. *)
Definition env_with
    (enc : list string → gmap string Z → launch (Z * string * Q * gmap string Z))
    (refusal : option string) : Env :=
  mkEnv listing_talks
    (λ _, [])
    (λ _ _, Started (0, "not json"))
    (λ _, None)
    (λ _ f, Started f)
    enc
    (λ _ _, refusal)
    (λ f, f)
    (λ l, rev l)
    (λ _, "[...]")
    (λ n, pretty n).

(** The directory of the scenario: two recordings and an empty file *)
Definition world_talks : World :=
  mkWorld (list_to_map [("d/Talk1.mp3", 500000); ("d/Talk2.mp3", 0);
                        ("d/Talk3.m4a", 300000)]) [].

(** The same directory after [Talk1.mp3] has been encoded *)
Definition world_encoded : World :=
  mkWorld (list_to_map [("d/Talk/Talk1.mp3", 1000); ("d/Talk1.mp3", 500000)]) [].

Definition task_talk1 : Task := make_task "d" 3 1 "d/Talk1.mp3".
Definition task_talk2 : Task := make_task "d" 3 2 "d/Talk2.mp3".

(** The outcome of one task: the name of its file, one of the three
    statuses, a message with every failure, and at most one call of
    [os.remove], on the input of the task and only together with the status
    [success]. *)
Definition outcome_ok (task : Task) (new : list event) (r : res dict) : Prop :=
  match r with
  | Ret d =>
      d !! "file" = Some (PyStr (filename task))
      ∧ ((d !! "status" = Some (PyStr "success")
          ∧ (removals new = [] ∨ removals new = [input_file task]))
         ∨ (d !! "status" = Some (PyStr "skipped") ∧ removals new = [])
         ∨ (d !! "status" = Some (PyStr "failed") ∧ removals new = []
            ∧ ∃ msg, d !! "error" = Some (PyStr msg) ∧ msg ≠ ""))
  | Raise e => removals new = []
  end.

(** The entry that the aggregation loop appends to [results["errors"]] for
    a future, if it appends one *)
Definition error_entry (future : Future) : option dict :=
  match future with
  | (task, Raise e) =>
      Some {[ "file" := PyStr (filename task);
              "error" := PyStr ("Unexpected error: " +:+ exn_str e) ]}
  | (task, Ret d) =>
      match d !! "status", d !! "error" with
      | Some status, Some error =>
          if py_eq_str status "failed"
          then Some {[ "file" := PyStr (filename task); "error" := error ]}
          else None
      | _, _ => None
      end
  end.

(** A future whose outcome is one that [process_single_file] can give *)
Definition future_ok (future : Future) : Prop :=
  ∃ new, outcome_ok future.1 new future.2.

(** The sum of the three counters *)
Definition counted (results : Results.t) : Z :=
  Results.processed results + Results.skipped results + Results.failed results.

(** [d["status"] == s] *)
Definition status_is (d : dict) (s : string) : bool :=
  match d !! "status" with
  | Some v => py_eq_str v s
  | None => false
  end.

(** The lines printed among some events *)
Definition prints (evs : list event) : list line :=
  omap (λ e, match e with EvPrint l => Some l | _ => None end) evs.

Definition task_talk3 : Task := make_task "d" 3 3 "d/Talk3.m4a".

(** Somebody empties [Talk1.mp3] behind the back of the worker *)
Definition env_truncating : Env :=
  mkEnv listing_talks
    (λ _, [])
    (λ _ _, Started (0, "not json"))
    (λ _, None)
    (λ _ f, Started f)
    encoder_ok
    (λ _ _, None)
    (λ f, <["d/Talk1.mp3" := 0]> f)
    (λ l, rev l)
    (λ _, "[...]")
    (λ n, pretty n).

(** What [get_audio_info] makes of the return code and the output of
    [ffprobe] *)
Definition parsed_probe (env : Env) (probe : Z * string) : pyval :=
  if negb (probe.1 =? 0) then PyNone
  else match json_loads env probe.2 with
       | Some v => v
       | None => PyNone
       end.

(** The futures whose worker returned a dictionary with the status [s] *)
Definition returned (s : string) (futures : list Future) : list Future :=
  List.filter
    (λ future, match future.2 with Ret d => status_is d s | Raise _ => false end)
    futures.


(** An encoder that cannot be started *)
Definition encoder_absent (cmd : list string) (f : gmap string Z)
    : launch (Z * string * Q * gmap string Z) :=
  Refused "[Errno 2] No such file or directory: 'ffmpeg'".

(** Somebody removes [Talk1.mp3] behind the back of the worker *)
Definition env_removing : Env :=
  mkEnv listing_talks
    (λ _, [])
    (λ _ _, Started (0, "not json"))
    (λ _, None)
    (λ _ f, Started f)
    encoder_ok
    (λ _ _, None)
    (λ f, delete "d/Talk1.mp3" f)
    (λ l, rev l)
    (λ _, "[...]")
    (λ n, pretty n).








(** * Properties *)

(** ** Strings *)

Section StringFacts.

Implicit Types (s t u : string) (c : ascii).

Lemma str_app_nil_l s : "" +:+ s = s.
Proof. reflexivity. Qed.

Lemma str_app_cons c s t : String c s +:+ t = String c (s +:+ t).
Proof. reflexivity. Qed.

Lemma str_app_nil_r s : s +:+ "" = s.
Proof. induction s as [|c s IH]; [done|]. by rewrite str_app_cons, IH. Qed.

Lemma str_app_assoc s t u : (s +:+ t) +:+ u = s +:+ t +:+ u.
Proof. induction s as [|c s IH]; [done|]. by rewrite !str_app_cons, IH. Qed.

Lemma contains_app c s t :
  Str.contains c (s +:+ t) = Str.contains c s || Str.contains c t.
Proof.
  induction s as [|b s IH]; [done|].
  rewrite str_app_cons. simpl. rewrite IH. by rewrite orb_assoc.
Qed.


(** Before the first character of [old] shows up nothing is replaced. *)
Lemma replace_app_absent c old new s t :
  Str.contains c s = false →
  Str.replace (String c old) new (s +:+ t) = s +:+ Str.replace (String c old) new t.
Proof.
  unfold Str.replace. induction s as [|b s IH]; [done|].
  simpl. intros [Hb Hs]%orb_false_elim.
  rewrite str_app_cons. simpl.
  rewrite (eqb_sym c b), Hb. simpl. by rewrite IH.
Qed.






End StringFacts.

Section PathFacts.

Implicit Types (s t u p : string) (c : ascii).

Lemma endswith_app p s : Str.endswith p (s +:+ p) = true.
Proof.
  induction s as [|c s IH].
  - rewrite str_app_nil_l. destruct p; cbn [Str.endswith]; by rewrite String.eqb_refl.
  - rewrite str_app_cons. simpl. rewrite IH. apply orb_true_r.
Qed.

Lemma endswith_inv p s : Str.endswith p s = true → ∃ t, s = t +:+ p.
Proof.
  induction s as [|c s IH].
  - cbn [Str.endswith]. intros H. apply orb_prop in H as [H|H]; [|done].
    apply String.eqb_eq in H as <-. by exists "".
  - cbn [Str.endswith]. intros H. apply orb_prop in H as [H|H].
    + apply String.eqb_eq in H as <-. by exists "".
    + destruct (IH H) as [t ->]. by exists (String c t).
Qed.

Lemma endswith_mp3_m4a s :
  Str.endswith ".mp3" s = true → Str.endswith ".m4a" s = true → False.
Proof.
  induction s as [|c s IH]; [done|].
  cbn [Str.endswith]. intros [H1|H1]%orb_prop [H2|H2]%orb_prop; [| | |by auto].
  - apply String.eqb_eq in H1, H2. congruence.
  - apply String.eqb_eq in H1. by injection H1 as -> ->.
  - apply String.eqb_eq in H2. by injection H2 as -> ->.
Qed.

Lemma no_slash_startswith s : Str.contains "/" s = false → Str.startswith "/" s = false.
Proof.
  destruct s as [|c s]; [done|]. cbn [Str.contains Str.startswith].
  intros [H _]%orb_false_elim. by rewrite eqb_sym, H.
Qed.

Lemma basename_no_slash s : Str.contains "/" s = false → Path.basename s = s.
Proof.
  destruct s as [|c s]; [done|]. cbn [Str.contains Path.basename].
  intros [H ->]%orb_false_elim. by rewrite H.
Qed.

Lemma basename_after_slash p s :
  Str.contains "/" s = false → Path.basename (p +:+ "/" +:+ s) = s.
Proof.
  intros Hs. induction p as [|c p IH].
  - rewrite str_app_nil_l. change ("/" +:+ s) with (String "/" s).
    cbn [Path.basename]. by rewrite Hs.
  - rewrite str_app_cons. cbn [Path.basename].
    rewrite contains_app. change ("/" +:+ s) with (String "/" s).
    cbn [Str.contains]. by rewrite Ascii.eqb_refl, orb_true_r.
Qed.

Lemma head_upto_slash_no_slash s : Str.contains "/" s = false → Path.head_upto_slash s = "".
Proof.
  destruct s as [|c s]; [done|]. cbn [Str.contains Path.head_upto_slash].
  intros [H ->]%orb_false_elim. by rewrite H.
Qed.

Lemma head_upto_slash_app p s :
  Str.contains "/" s = false →
  Path.head_upto_slash (p +:+ s) = Path.head_upto_slash p.
Proof.
  intros Hs. induction p as [|c p IH].
  - rewrite str_app_nil_l. by apply head_upto_slash_no_slash.
  - rewrite str_app_cons. cbn [Path.head_upto_slash].
    rewrite contains_app, Hs, orb_false_r. by rewrite IH.
Qed.

Lemma join_empty_r a b :
  Str.startswith "/" b = false → Path.join a b = Path.join a "" +:+ b.
Proof.
  intros Hb. unfold Path.join. rewrite Hb. simpl.
  destruct (String.eqb a "" || Str.endswith "/" a).
  - by rewrite str_app_nil_r.
  - by rewrite str_app_assoc.
Qed.

(** [os.path.join(a, "")] is empty or ends with a slash *)
Lemma join_empty_shape a : Path.join a "" = "" ∨ ∃ p, Path.join a "" = p +:+ "/".
Proof.
  unfold Path.join. simpl.
  destruct (String.eqb_spec a "") as [->|Ha]; simpl; [by left|].
  destruct (Str.endswith "/" a) eqn:He.
  - right. rewrite str_app_nil_r. by apply endswith_inv.
  - right. by exists a.
Qed.

Lemma split_join directory pat :
  Str.contains "/" pat = false →
  Path.split (Path.join directory pat) = (search_dir directory, pat).
Proof.
  intros Hpat. rewrite join_empty_r by by apply no_slash_startswith.
  unfold search_dir, Path.split. simpl.
  rewrite head_upto_slash_app by done. f_equal.
  destruct (join_empty_shape directory) as [-> | [p ->]].
  - rewrite str_app_nil_l. by apply basename_no_slash.
  - rewrite str_app_assoc. by apply basename_after_slash.
Qed.

Lemma basename_join d name :
  d ≠ "" → Str.contains "/" name = false → Path.basename (Path.join d name) = name.
Proof.
  intros Hd Hname. rewrite join_empty_r by by apply no_slash_startswith.
  destruct (join_empty_shape d) as [H | [p ->]].
  - unfold Path.join in H. simpl in H.
    destruct (String.eqb_spec d "") as [|_]; [done|]. simpl in H.
    destruct (Str.endswith "/" d).
    + by rewrite str_app_nil_r in H.
    + by destruct d.
  - rewrite str_app_assoc. by apply basename_after_slash.
Qed.

Lemma basename_found_path directory name :
  Str.contains "/" name = false → Path.basename (found_path directory name) = name.
Proof.
  intros Hname. unfold found_path.
  destruct (String.eqb_spec (search_dir directory) "") as [_|Hd].
  - by apply basename_no_slash.
  - by apply basename_join.
Qed.

End PathFacts.
(** ** File discovery *)

Lemma filter_filter_andb {A} (f g : A → bool) (l : list A) :
  List.filter g (List.filter f l) = List.filter (λ x, f x && g x) l.
Proof.
  induction l as [|x l IH]; [done|].
  simpl. destruct (f x); simpl; [destruct (g x)|]; by rewrite IH.
Qed.

Lemma contains_head_upto_slash c p :
  Str.contains c p = false → Str.contains c (Path.head_upto_slash p) = false.
Proof.
  induction p as [|b p IH]; [done|].
  cbn [Str.contains Path.head_upto_slash]. intros [Hb Hp]%orb_false_elim.
  destruct (Str.contains "/" p).
  - cbn [Str.contains]. by rewrite Hb, IH.
  - destruct (Ascii.eqb_spec b "/") as [->|]; [|done].
    cbn [Str.contains]. by rewrite Hb.
Qed.

Lemma contains_rstrip_slash c s :
  Str.contains c s = false → Str.contains c (Path.rstrip_slash s) = false.
Proof.
  induction s as [|b s IH]; [done|].
  cbn [Str.contains Path.rstrip_slash]. intros [Hb Hs]%orb_false_elim.
  specialize (IH Hs). destruct (Path.rstrip_slash s) as [|b' r].
  - destruct (Ascii.eqb b "/"); [done|]. cbn [Str.contains]. by rewrite Hb.
  - cbn [Str.contains] in *. by rewrite Hb, IH.
Qed.

Lemma contains_search_dir c directory :
  Str.contains c "/" = false →
  Str.contains c directory = false →
  Str.contains c (search_dir directory) = false.
Proof.
  intros Hslash Hdir.
  assert (Str.contains c (Path.join directory "") = false) as Hjoin.
  { unfold Path.join. cbn [Str.startswith].
    destruct (_ || _); rewrite !contains_app, Hdir; [done|].
    by rewrite Hslash. }
  unfold search_dir, Path.split. cbn [fst].
  destruct (_ && _).
  - by apply contains_rstrip_slash, contains_head_upto_slash.
  - by apply contains_head_upto_slash.
Qed.

(** A source directory without pattern characters is searched as it is. *)
Lemma has_magic_search_dir directory :
  Glob.has_magic directory = false → Glob.has_magic (search_dir directory) = false.
Proof.
  unfold Glob.has_magic.
  intros [[H1 H2]%orb_false_elim H3]%orb_false_elim.
  by rewrite !contains_search_dir.
Qed.

Lemma glob_star_suffix scandir match_dirs directory suffix :
  Str.contains "/" suffix = false →
  Glob.has_magic directory = false →
  Glob.glob scandir match_dirs (Path.join directory (String "*" suffix)) =
    found_path directory <$> visible_with_suffix suffix (scandir (search_dir directory)).
Proof.
  intros Hs Hmagic%has_magic_search_dir. unfold Glob.glob.
  rewrite split_join by (cbn [Str.contains]; by rewrite Hs).
  rewrite Hmagic, andb_false_r. cbn [fmap list_fmap concat].
  rewrite (right_id_L [] (++)).
  unfold Glob.glob1, visible_with_suffix, found_path.
  change (Glob.ishidden (String "*" suffix)) with false. cbn iota.
  rewrite filter_filter_andb. cbn [Glob.fnmatch].
  destruct (String.eqb (search_dir directory) ""); [|done].
  by rewrite list_fmap_id.
Qed.

Lemma visible_with_suffix_spec suffix entries name :
  name ∈ visible_with_suffix suffix entries ↔
  name ∈ entries ∧ Glob.ishidden name = false ∧ Str.endswith suffix name = true.
Proof.
  unfold visible_with_suffix. rewrite !list_elem_of_In, filter_In.
  rewrite andb_true_iff, negb_true_iff. tauto.
Qed.

Lemma file_tasks_lookup directory audio_files i task :
  file_tasks directory audio_files !! i = Some task ↔
  ∃ p, audio_files !! i = Some p ∧
       task = make_task directory (length audio_files) (S i) p.
Proof.
  unfold file_tasks, enumerate1.
  rewrite list_lookup_fmap, list_lookup_imap.
  destruct (audio_files !! i) as [p|]; simpl.
  - split; [intros [= <-]; eauto | intros (? & [= <-] & ->); done].
  - split; [done | intros (? & [=] & _)].
Qed.

(** C10 (amended): for a source directory whose path holds none of the
    pattern characters [*], [?] and [[], file discovery returns, of the
    entries listed directly in that directory, exactly those whose name
    does not start with a dot and ends in the lowercase suffix [.mp3] or
    [.m4a]; the [.mp3] matches come first, then the [.m4a] matches, each
    group in listing order; the tasks are numbered 1..N in that order, so
    every [.mp3] file is numbered before any [.m4a] file. *)
Theorem get_mp3_files_discovery (scandir match_dirs : string → list string)
    (directory : string) :
  Glob.has_magic directory = false →
  (∀ name, name ∈ scandir (search_dir directory) → Str.contains "/" name = false) →
  let entries := scandir (search_dir directory) in
  let audio_files := get_mp3_files scandir match_dirs directory in
  let tasks := file_tasks directory audio_files in
  audio_files =
    (found_path directory <$> visible_with_suffix ".mp3" entries) ++
    (found_path directory <$> visible_with_suffix ".m4a" entries)
  ∧ (∀ p, p ∈ audio_files ↔
       ∃ name, name ∈ entries ∧ Glob.ishidden name = false ∧
               (Str.endswith ".mp3" name = true ∨ Str.endswith ".m4a" name = true) ∧
               p = found_path directory name)
  ∧ length tasks = length audio_files
  ∧ (∀ i task, tasks !! i = Some task →
       file_index task = S i ∧ audio_files !! i = Some (input_file task))
  ∧ (∀ t1 t2, t1 ∈ tasks → t2 ∈ tasks →
       Str.endswith ".mp3" (filename t1) = true →
       Str.endswith ".m4a" (filename t2) = true →
       (file_index t1 < file_index t2)%nat).
Proof.
  intros Hmagic Hnames entries audio_files tasks.
  assert (audio_files =
    (found_path directory <$> visible_with_suffix ".mp3" entries) ++
    (found_path directory <$> visible_with_suffix ".m4a" entries)) as Hfiles.
  { unfold audio_files, get_mp3_files. rewrite !glob_star_suffix by done. done. }
  split; [done|]. split; [|split; [|split]].
  - intros p. rewrite Hfiles, elem_of_app, !list_elem_of_fmap.
    setoid_rewrite visible_with_suffix_spec. split.
    + intros [(name & -> & ? & ? & ?) | (name & -> & ? & ? & ?)]; exists name; auto.
    + intros (name & ? & ? & [?|?] & ->); [left | right]; exists name; auto.
  - unfold tasks, file_tasks, enumerate1. by rewrite length_fmap, length_imap.
  - intros i task (p & Hp & ->)%file_tasks_lookup. done.
  - (* the name of the file at position [i] ends in .mp3 before the
       boundary and in .m4a from the boundary on *)
    set (mp3s := visible_with_suffix ".mp3" entries) in *.
    set (m4as := visible_with_suffix ".m4a" entries) in *.
    assert (∀ i task, tasks !! i = Some task →
              file_index task = S i ∧
              ((i < length mp3s)%nat ∧ Str.endswith ".mp3" (filename task) = true ∨
               (length mp3s ≤ i)%nat ∧ Str.endswith ".m4a" (filename task) = true)) as Hpos.
    { intros i task (p & Hp & ->)%file_tasks_lookup. split; [done|].
      rewrite Hfiles in Hp. cbn [make_task filename].
      apply lookup_app_Some in Hp as [Hp | [Hle Hp]].
      - left. apply list_lookup_fmap_Some in Hp as (name & -> & Hname).
        pose proof (lookup_lt_Some _ _ _ Hname) as Hlt. split; [done|].
        apply list_elem_of_lookup_2, visible_with_suffix_spec in Hname as (Hin & _ & He).
        by rewrite basename_found_path by auto.
      - right. rewrite length_fmap in Hle, Hp.
        apply list_lookup_fmap_Some in Hp as (name & -> & Hname). split; [done|].
        apply list_elem_of_lookup_2, visible_with_suffix_spec in Hname as (Hin & _ & He).
        by rewrite basename_found_path by auto. }
    intros t1 t2 [i1 H1]%list_elem_of_lookup [i2 H2]%list_elem_of_lookup E1 E2.
    destruct (Hpos _ _ H1) as [-> [[? _] | [_ E1']]];
      [|by destruct (endswith_mp3_m4a _ E1 E1')].
    destruct (Hpos _ _ H2) as [-> [[_ E2'] | [? _]]];
      [by destruct (endswith_mp3_m4a _ E2' E2)|].
    lia.
Qed.

Lemma get_mp3_files_discovery_witness :
  Glob.has_magic "d" = false
  ∧ (∀ name, name ∈ listing_hidden (search_dir "d") → Str.contains "/" name = false)
  ∧ get_mp3_files listing_hidden (λ _, []) "d" = ["d/a.mp3"; "d/b.m4a"].
Proof.
  assert (∀ name, name ∈ listing_hidden (search_dir "d") →
                  Str.contains "/" name = false) as H.
  { intros name Hin. unfold listing_hidden in Hin.
    repeat (apply elem_of_cons in Hin as [-> | Hin]; [reflexivity|]).
    by apply elem_of_nil in Hin. }
  split; [reflexivity|]. split; [exact H|].
  exact (proj1 (get_mp3_files_discovery listing_hidden (λ _, []) "d" eq_refl H)).
Defined.

(** C10, as stated, fails on a hidden file: its name ends in [.mp3], it is
    in the directory, and discovery leaves it out. *)
Lemma get_mp3_files_skips_hidden :
  ".notes.mp3" ∈ listing_hidden "d"
  ∧ Str.endswith ".mp3" ".notes.mp3" = true
  ∧ get_mp3_files listing_hidden (λ _, []) "d" = ["d/a.mp3"; "d/b.m4a"].
Proof.
  split; [|split]; [|reflexivity..].
  unfold listing_hidden. rewrite !elem_of_cons. auto.
Qed.

(** A source directory whose path holds pattern characters is expanded as
    a pattern: for [d[1]] the files of the sibling directory [d1] are
    found, and not those of [d[1]] itself. *)
Example get_mp3_files_pattern_directory :
  Glob.has_magic "d[1]" = true
  ∧ listing_brackets "d[1]" = ["a.mp3"]
  ∧ get_mp3_files listing_brackets match_brackets "d[1]" = ["d1/z.mp3"].
Proof. repeat split; reflexivity. Qed.
(** ** Naming resolver *)

Section ReplaceFacts.

Implicit Types (s t old new : string) (c : ascii).






(** A stem without a dot: the extension [.m4a] becomes [.mp3] and the
    extension [.mp3] stays. *)
Lemma replace_m4a_plain_stem stem :
  Str.contains "." stem = false →
  Str.replace ".m4a" ".mp3" (stem +:+ ".m4a") = stem +:+ ".mp3"
  ∧ Str.replace ".m4a" ".mp3" (stem +:+ ".mp3") = stem +:+ ".mp3".
Proof. intros H. by rewrite !replace_app_absent. Qed.

End ReplaceFacts.


(** C7: at the discoverable name [a.mp3b.mp3] the code does not follow the
    algorithm of the claim.  [extract_base_name] removes every occurrence
    of [.mp3] and of [.m4a], wherever it stands, and so returns [ab]; with
    the extension removed as a suffix only, the leading run of letters is
    [a]. *)
Theorem extract_base_name_inner_extension :
  extract_base_name "a.mp3b.mp3" = "ab"
  ∧ NamingSpec.base_name "a.mp3b.mp3" = "a".
Proof. split; reflexivity. Qed.

(** C8: the second half of the claim fails at the discoverable name
    [1.mp3.mp3].  It has no leading letter; without its extension it is
    [1.mp3], and without the trailing digits of that, [1.mp]; but
    [extract_base_name] returns the empty string, because it removes both
    occurrences of [.mp3] before it looks for digits. *)
Theorem extract_base_name_no_letters_inner_extension :
  Str.span Str.is_ascii_letter "1.mp3.mp3" = ""
  ∧ NamingSpec.strip_extension "1.mp3.mp3" = "1.mp3"
  ∧ NamingSpec.strip_trailing_digits "1.mp3" = "1.mp"
  ∧ extract_base_name "1.mp3.mp3" = "".
Proof. repeat split; reflexivity. Qed.

(** C9: at the discoverable file [a.m4a.mp3] the output path is not the
    source directory joined with the base name and the file name: the
    extension is [.mp3] and should pass through, but the code rewrites the
    inner [.m4a] as well. *)
Theorem make_task_inner_m4a :
  output_file (make_task "d" 1 1 "d/a.m4a.mp3") = "d/a/a.mp3.mp3"
  ∧ NamingSpec.output_path "d" "a.m4a.mp3" = "d/a/a.m4a.mp3".
Proof. split; reflexivity. Qed.

(** ** Where the code follows the naming rules of the specification *)

Section NamingAgreement.

Implicit Types (s t : string) (c : ascii) (f : ascii → bool).

Lemma rev_app_acc s t : String.rev_app s t = String.rev s +:+ t.
Proof.
  unfold String.rev. revert t. induction s as [|c s IH]; intros t; [done|].
  cbn [String.rev_app]. rewrite (IH (String c t)), (IH (String c "")).
  by rewrite str_app_assoc.
Qed.

Lemma rev_cons c s : String.rev (String c s) = String.rev s +:+ String c "".
Proof. unfold String.rev at 1. cbn [String.rev_app]. apply rev_app_acc. Qed.

Lemma rev_app_str s t : String.rev (s +:+ t) = String.rev t +:+ String.rev s.
Proof.
  induction s as [|c s IH].
  - by rewrite str_app_nil_l, str_app_nil_r.
  - by rewrite str_app_cons, !rev_cons, IH, str_app_assoc.
Qed.

Lemma rev_involutive s : String.rev (String.rev s) = s.
Proof.
  induction s as [|c s IH]; [done|].
  by rewrite rev_cons, rev_app_str, IH.
Qed.

Lemma length_rev s : String.length (String.rev s) = String.length s.
Proof.
  assert (∀ a b, String.length (a +:+ b) = (String.length a + String.length b)%nat) as Happ.
  { intros a b. induction a as [|c a IH]; [done|].
    rewrite str_app_cons. cbn [String.length]. by rewrite IH. }
  induction s as [|c s IH]; [done|].
  rewrite rev_cons, Happ, IH. cbn [String.length]. lia.
Qed.

Lemma drop_app_length_str s t : Str.drop (String.length s) (s +:+ t) = t.
Proof. induction s as [|c s IH]; [done|]. by rewrite str_app_cons. Qed.

Lemma drop_end_app s t : NamingSpec.drop_end (String.length t) (s +:+ t) = s.
Proof.
  unfold NamingSpec.drop_end.
  by rewrite rev_app_str, <- (length_rev t), drop_app_length_str, rev_involutive.
Qed.

Lemma strip_extension_app stem ext :
  ext = ".mp3" ∨ ext = ".m4a" → NamingSpec.strip_extension (stem +:+ ext) = stem.
Proof.
  unfold NamingSpec.strip_extension, NamingSpec.strip_suffix.
  intros [-> | ->].
  - rewrite !endswith_app. apply (drop_end_app stem ".mp3").
  - destruct (Str.endswith ".mp3" (stem +:+ ".m4a")) eqn:He.
    + destruct (endswith_mp3_m4a _ He (endswith_app _ _)).
    + rewrite endswith_app. apply (drop_end_app stem ".m4a").
Qed.

Lemma all_app f s t : Str.all f (s +:+ t) = Str.all f s && Str.all f t.
Proof.
  induction s as [|c s IH]; [done|].
  rewrite str_app_cons. cbn [Str.all]. by rewrite IH, andb_assoc.
Qed.

Lemma all_rev f s : Str.all f (String.rev s) = Str.all f s.
Proof.
  induction s as [|c s IH]; [done|].
  rewrite rev_cons, all_app, IH. cbn [Str.all]. rewrite andb_true_r. apply andb_comm.
Qed.

Lemma skip_app f s t :
  Str.skip f (s +:+ t) = if Str.all f s then Str.skip f t else Str.skip f s +:+ t.
Proof.
  induction s as [|c s IH]; [done|].
  rewrite str_app_cons. cbn [Str.skip Str.all]. destruct (f c); [|done].
  by rewrite IH.
Qed.

Lemma skip_empty_iff f s : Str.skip f s = "" ↔ Str.all f s = true.
Proof.
  induction s as [|c s IH]; [done|].
  cbn [Str.skip Str.all]. by destruct (f c).
Qed.

Lemma contains_skip c f s :
  Str.contains c s = false → Str.contains c (Str.skip f s) = false.
Proof.
  induction s as [|b s IH]; [done|].
  cbn [Str.skip]. destruct (f b); [|done].
  cbn [Str.contains]. intros [_ ?]%orb_false_elim. auto.
Qed.

(** The trailing digits are dropped from the front to the back. *)
Lemma strip_trailing_digits_cons c s :
  NamingSpec.strip_trailing_digits (String c s) =
    if Str.is_digit c && Str.all Str.is_digit s then ""
    else String c (NamingSpec.strip_trailing_digits s).
Proof.
  unfold NamingSpec.strip_trailing_digits.
  rewrite rev_cons, skip_app, all_rev.
  destruct (Str.all Str.is_digit s) eqn:Hs.
  - cbn [Str.skip]. rewrite andb_true_r.
    apply skip_empty_iff in Hs as Hs'. rewrite <- all_rev in Hs.
    apply skip_empty_iff in Hs. rewrite Hs.
    by destruct (Str.is_digit c).
  - rewrite andb_false_r. by rewrite rev_app_str.
Qed.

Lemma sub_digits_dollar_strip s :
  Str.contains Str.newline s = false →
  Re.sub_digits_dollar s = NamingSpec.strip_trailing_digits s.
Proof.
  induction s as [|c s IH]; [done|].
  cbn [Str.contains]. intros [Hc Hs]%orb_false_elim.
  rewrite strip_trailing_digits_cons. cbn [Re.sub_digits_dollar].
  rewrite <- IH by done.
  destruct (Str.is_digit c); [|done]. cbn [andb].
  destruct (Str.all Str.is_digit s) eqn:Hall.
  - apply skip_empty_iff in Hall. by rewrite Hall.
  - pose proof (contains_skip _ Str.is_digit _ Hs) as Hk.
    destruct (Str.skip Str.is_digit s) as [|b [|b' k]] eqn:Hskip.
    + apply skip_empty_iff in Hskip. congruence.
    + cbn [Str.contains] in Hk. apply orb_false_elim in Hk as [Hb _].
      cbn [Re.at_dollar]. by rewrite Hb.
    + done.
Qed.

End NamingAgreement.

(** For a name made of a stem without a dot and without a newline,
    followed by a supported extension, [extract_base_name] computes the base
    name of the specification. *)
Lemma extract_base_name_plain_stem (stem ext : string) :
  Str.contains "." stem = false →
  Str.contains Str.newline stem = false →
  ext = ".mp3" ∨ ext = ".m4a" →
  extract_base_name (stem +:+ ext) = NamingSpec.base_name (stem +:+ ext).
Proof.
  intros Hdot Hnl Hext.
  assert (Str.replace ".m4a" "" (Str.replace ".mp3" "" (stem +:+ ext)) = stem) as Hname.
  { rewrite replace_app_absent by done.
    destruct Hext as [-> | ->].
    - change (Str.replace ".mp3" "" ".mp3") with "". rewrite str_app_nil_r.
      rewrite <- (str_app_nil_r stem) at 1.
      rewrite replace_app_absent by done. by rewrite str_app_nil_r.
    - change (Str.replace ".mp3" "" ".m4a") with ".m4a".
      rewrite replace_app_absent by done.
      change (Str.replace ".m4a" "" ".m4a") with "". by rewrite str_app_nil_r. }
  unfold extract_base_name, NamingSpec.base_name, Re.match_letters.
  rewrite Hname, strip_extension_app by done.
  destruct (Str.span Str.is_ascii_letter stem); [|done].
  by apply sub_digits_dollar_strip.
Qed.

(** For such a name the output path is the one of the specification. *)
Lemma make_task_plain_stem source_directory total i input (stem ext : string) :
  Str.contains "." stem = false →
  ext = ".mp3" ∨ ext = ".m4a" →
  Path.basename input = stem +:+ ext →
  output_file (make_task source_directory total i input)
    = NamingSpec.output_path source_directory (stem +:+ ext).
Proof.
  intros Hdot Hext Hbase. cbn [make_task output_file].
  unfold NamingSpec.output_path. rewrite Hbase. f_equal.
  destruct (replace_m4a_plain_stem stem Hdot) as [Hm4a Hmp3].
  unfold NamingSpec.remap_extension, NamingSpec.strip_suffix.
  destruct Hext as [-> | ->].
  - rewrite Hmp3.
    destruct (Str.endswith ".m4a" (stem +:+ ".mp3")) eqn:He; [|done].
    destruct (endswith_mp3_m4a _ (endswith_app _ _) He).
  - rewrite Hm4a, endswith_app. by rewrite (drop_end_app stem ".m4a").
Qed.
(** ** Running the program *)

Ltac unfold_core :=
  cbv [mbind M_bind mret M_ret raise try_OSError emit print set_fs
       get_fs path_exists getsize getitem of_launch yield fs trace fst snd] in *.

Ltac unfold_monad :=
  cbv [get_audio_info os_remove
       mbind M_bind mret M_ret raise try_OSError emit print set_fs
       get_fs path_exists getsize getitem of_launch yield fs trace fst snd] in *.

Ltac trace_ex :=
  first [ exists []; split; [by rewrite (right_id_L [] (++)) |]
        | eexists; split; [by rewrite <- ?(assoc_L (++)) |] ].

Lemma events_of_eq {A} (m : M A) w r w' new :
  m w = (r, w') → trace w' = trace w ++ new → events_of m w = new.
Proof.
  intros Hm Ht. unfold events_of. rewrite Hm. simpl. rewrite Ht.
  by rewrite drop_app_length.
Qed.

Lemma removals_app l1 l2 : removals (l1 ++ l2) = removals l1 ++ removals l2.
Proof. apply omap_app. Qed.


Lemma CalledProcessError_str_nonempty env cmd returncode :
  CalledProcessError_str env cmd returncode ≠ "".
Proof. unfold CalledProcessError_str. by destruct (returncode <? 0). Qed.

(** What [compress_audio] can return when it is told not to delete the
    source, and what it does meanwhile. *)
Lemma compress_audio_shape env i o w r w' :
  compress_audio env i o false w = (r, w') →
  ∃ new, trace w' = trace w ++ new
    ∧ removals new = []
    ∧ (encodings new ≠ [] → ∃ n, fs w !! i = Some n ∧ n ≠ 0)
    ∧ match r with
      | Ret (true, info) =>
          is_Some (info !! "input_size") ∧ is_Some (info !! "output_size")
          ∧ is_Some (info !! "compression_ratio")
      | Ret (false, info) =>
          (∃ msg, info !! "error" = Some (PyStr msg) ∧ msg ≠ "")
          ∧ (py_truthy (dict_get info "skip" (PyBool false)) = true →
             encodings new = [])
      | Raise e => True
      end.
Proof.
  destruct w as [f tr]. unfold compress_audio. unfold_monad.
  intros H.
  repeat (case_match; simplify_eq).
  all: trace_ex; split; [done|].
  all: split; [first [done | intros _; eexists; split; [done|]; by apply Z.eqb_neq]|].
  all: try done.
  all: try (split; [eexists; split; [by simplify_map_eq|done] | done]).
  all: split;
    [ eexists; split; [by simplify_map_eq|];
      first [ apply CalledProcessError_str_nonempty
            | by apply String.eqb_neq, negb_true_iff ]
    | unfold dict_get; by simplify_map_eq ].
Qed.

Lemma process_single_file_shape env task w r w' :
  process_single_file env task w = (r, w') →
  ∃ new, trace w' = trace w ++ new ∧ outcome_ok task new r.
Proof.
  destruct w as [f tr], task as [i o name k n].
  unfold process_single_file, outcome_ok. unfold_monad.
  cbv [input_file filename].
  intros H.
  repeat (case_match; simplify_eq).
  all: try match goal with
       | Hc : compress_audio _ _ _ _ _ = _ |- _ =>
           apply compress_audio_shape in Hc as (new & Htr & Hrem & _ & Hinfo);
           cbv [fs trace] in Htr; rewrite ?Htr
       end.
  all: trace_ex; rewrite ?removals_app, ?Hrem; cbn [removals omap app].
  all: try done.
  all: split; [by simplify_map_eq|].
  all: first
    [ left; split; [by simplify_map_eq|]; by auto
    | right; left; split; [by simplify_map_eq | done]
    | right; right; split; [by simplify_map_eq|]; split; [done|];
      destruct Hinfo as [(msg & Hmsg & Hne) _]; exists msg;
      unfold dict_get; rewrite Hmsg; by simplify_map_eq ].
Qed.

(** ** Single-item processor *)

(** C3: when the output path of a task exists, [process_single_file]
    reports the file as skipped with the message "already exists", whatever
    the state of the input; this is its first test, before the input is
    looked at.  The encoder is not run and the files are left as they
    are, so the existing output is not overwritten. *)
Theorem process_single_file_output_exists env task w :
  is_Some (fs w !! output_file task) →
  process_single_file env task w =
    (Ret {[ "status" := PyStr "skipped"; "file" := PyStr (filename task) ]},
     mkWorld (fs w)
       (trace w ++
        [EvPrint (LHeader (file_index task) (total_files task) (filename task));
         EvPrint (LBaseName (extract_base_name (filename task)));
         EvPrint (LOutput (extract_base_name (filename task))
                    (Path.basename (output_file task)));
         EvPrint LSkippedExists;
         EvPrint LBlank]))
  ∧ encodings (events_of (process_single_file env task) w) = []
  ∧ removals (events_of (process_single_file env task) w) = [].
Proof.
  intros Hout.
  assert (process_single_file env task w =
    (Ret {[ "status" := PyStr "skipped"; "file" := PyStr (filename task) ]},
     mkWorld (fs w)
       (trace w ++
        [EvPrint (LHeader (file_index task) (total_files task) (filename task));
         EvPrint (LBaseName (extract_base_name (filename task)));
         EvPrint (LOutput (extract_base_name (filename task))
                    (Path.basename (output_file task)));
         EvPrint LSkippedExists;
         EvPrint LBlank]))) as Hrun.
  { destruct task as [i o name k n], w as [f tr]. cbn [output_file fs] in Hout.
    unfold process_single_file. unfold_monad.
    cbv [output_file filename file_index total_files].
    rewrite bool_decide_eq_true_2 by done. unfold_monad.
    by rewrite <- !(assoc_L (++)). }
  split; [done|].
  split; by rewrite (events_of_eq _ _ _ _ _ Hrun eq_refl).
Qed.

Lemma process_single_file_output_exists_witness :
  is_Some (fs world_encoded !! output_file task_talk1)
  ∧ encodings (events_of (process_single_file (env_with encoder_ok None) task_talk1)
                 world_encoded) = [].
Proof.
  assert (is_Some (fs world_encoded !! output_file task_talk1)) as H
    by (by exists 1000).
  split; [exact H|].
  exact (proj1 (proj2 (process_single_file_output_exists
                         (env_with encoder_ok None) task_talk1 world_encoded H))).
Defined.

Lemma compress_audio_empty env i o delete_source w :
  fs w !! i = Some 0 →
  compress_audio env i o delete_source w =
    (Ret (false,
          {[ "error" := PyStr ("Input file is empty (0 bytes): " +:+ i);
             "skip" := PyBool true ]}), w).
Proof.
  destruct w as [f tr]. cbn [fs]. intros Hi.
  unfold compress_audio. unfold_monad. rewrite Hi.
  rewrite bool_decide_eq_true_2 by done. cbn [negb]. unfold_monad.
  by rewrite Hi.
Qed.

(** C4: an input file of 0 bytes is classified [skipped], never [failed],
    and the encoder is not run for it.  This holds when the size 0 is seen
    by the checks of [process_single_file], and when the file becomes
    empty after them and the size 0 is seen inside [compress_audio], which
    then returns the error marked [skip] without doing anything. *)
Theorem process_single_file_empty_input env task w :
  fs w !! input_file task = Some 0
  ∨ interfere env (fs w) !! input_file task = Some 0 →
  (∃ d w', process_single_file env task w = (Ret d, w')
           ∧ d !! "status" = Some (PyStr "skipped"))
  ∧ encodings (events_of (process_single_file env task) w) = []
  ∧ (∀ o delete_source w1,
       fs w1 !! input_file task = Some 0 →
       compress_audio env (input_file task) o delete_source w1 =
         (Ret (false,
               {[ "error" := PyStr ("Input file is empty (0 bytes): " +:+ input_file task);
                  "skip" := PyBool true ]}), w1)).
Proof.
  intros Hempty.
  split; [|split]; [| |intros; by apply compress_audio_empty].
  - destruct task as [i o name k n], w as [f tr]. cbn [input_file fs] in *.
    unfold process_single_file. unfold_monad.
    repeat (case_match; simplify_eq); try (eexists _, _; split; [done|]; by simplify_map_eq).
    all: destruct Hempty as [He|He]; [by simplify_eq|].
    all: match goal with
         | Hc : compress_audio _ _ _ _ ?w1 = _ |- _ =>
             rewrite (compress_audio_empty _ _ _ _ w1 He) in Hc; simplify_eq
         end.
    all: unfold dict_get in *; simplify_map_eq.
  - destruct (process_single_file env task w) as [r w'] eqn:Hrun.
    cut (∃ new, trace w' = trace w ++ new ∧ encodings new = []).
    { intros (new & Htr & Henc). by rewrite (events_of_eq _ _ _ _ _ Hrun Htr). }
    destruct task as [i o name k n], w as [f tr]. cbn [input_file fs] in *.
    unfold process_single_file in Hrun. unfold_monad.
    repeat (case_match; simplify_eq); try (trace_ex; done).
    all: destruct Hempty as [He|He]; [by simplify_eq|].
    all: match goal with
         | Hc : compress_audio _ _ _ _ ?w1 = _ |- _ =>
             rewrite (compress_audio_empty _ _ _ _ w1 He) in Hc; simplify_eq
         end.
    all: try (trace_ex; done).
    all: unfold dict_get in *; simplify_map_eq.
Qed.

Lemma process_single_file_empty_input_witness :
  (∃ d w', process_single_file (env_with encoder_ok None) task_talk2 world_talks = (Ret d, w')
           ∧ d !! "status" = Some (PyStr "skipped"))
  ∧ (∃ d w', process_single_file env_truncating task_talk1 world_talks = (Ret d, w')
             ∧ d !! "status" = Some (PyStr "skipped")).
Proof.
  split.
  - apply (process_single_file_empty_input (env_with encoder_ok None) task_talk2 world_talks).
    left. reflexivity.
  - apply (process_single_file_empty_input env_truncating task_talk1 world_talks).
    right. reflexivity.
Defined.

(** ** Transcode invoker *)

Lemma get_audio_info_started env path f tr probe :
  ffprobe env path f = Started probe →
  get_audio_info env path (mkWorld f tr) =
    (Ret (parsed_probe env probe), mkWorld f (tr ++ [EvProbe path])).
Proof.
  intros Hprobe. unfold get_audio_info, parsed_probe. unfold_core.
  rewrite Hprobe. destruct (negb _); [done|]. by destruct (json_loads _ _).
Qed.

(** C5: [compress_audio] on an existing, non-empty input, once [ffprobe]
    and the creation of the output directory have gone through.  When the
    encoder exits with a non-zero code the result is the failure carrying
    its captured standard error (the text of the exception when nothing was
    captured), not marked [skip]; when it exits with 0 and the output file
    is absent the result is the failure "Output file was not created"; when
    the output is there the result is the success whose [compression_ratio]
    is input_size / output_size, and 0 for an output of size 0, whether the
    metadata of the output could be read and parsed or not. *)
Theorem compress_audio_postconditions env input output delete_source w
    n probe f1 returncode stderr seconds f2 :
  fs w !! input = Some n →
  n ≠ 0 →
  ffprobe env input (fs w) = Started probe →
  mkdir_parent env output (fs w) = Started f1 →
  ffmpeg env (["ffmpeg"; "-y"; "-i"; input] ++ ffmpeg_options ++ [output]) f1
    = Started (returncode, stderr, seconds, f2) →
  let r := (compress_audio env input output delete_source w).1 in
  (returncode ≠ 0 →
     ∃ info, r = Ret (false, info)
       ∧ info !! "error" =
           Some (PyStr (if String.eqb stderr ""
                        then CalledProcessError_str env
                               (["ffmpeg"; "-y"; "-i"; input] ++ ffmpeg_options ++ [output])
                               returncode
                        else stderr))
       ∧ info !! "skip" = None)
  ∧ (returncode = 0 → f2 !! output = None →
     r = Ret (false, {[ "error" := PyStr "Output file was not created" ]}))
  ∧ (returncode = 0 →
     ∀ m probe', f2 !! output = Some m → ffprobe env output f2 = Started probe' →
     ∃ info, r = Ret (true, info)
       ∧ info !! "input_size" = Some (PyInt n)
       ∧ info !! "output_size" = Some (PyInt m)
       ∧ info !! "compression_ratio" =
           Some (if 0 <? m then PyFloat (inject_Z n / inject_Z m) else PyInt 0)
       ∧ (probe'.1 ≠ 0 ∨ json_loads env probe'.2 = None →
          info !! "output_info" = Some PyNone)).
Proof.
  destruct w as [f tr]. cbn [fs]. intros Hin Hn Hprobe Hmkdir Henc. cbv zeta.
  apply Z.eqb_neq in Hn.
  unfold compress_audio.
  repeat (progress (unfold_core; cbn [negb];
                    rewrite ?Hin, ?Hn, ?Hmkdir, ?Henc,
                      ?(get_audio_info_started _ _ _ _ _ Hprobe),
                      ?bool_decide_eq_true_2 by done)).
  split; [|split].
  - intros Hrc%Z.eqb_neq. rewrite Hrc. cbn [negb]. unfold_core.
    eexists. split; [done|].
    destruct (String.eqb stderr ""); cbn [negb]; by simplify_map_eq.
  - intros -> Hout. cbn [Z.eqb negb]. unfold_core.
    rewrite Hout. rewrite bool_decide_eq_false_2 by (by intros [? ?]).
    done.
  - intros -> m probe' Hout Hprobe'. cbn [Z.eqb negb].
    repeat (progress (unfold_core;
                      rewrite ?Hout, ?(get_audio_info_started _ _ _ _ _ Hprobe'),
                        ?bool_decide_eq_true_2 by done)).
    assert (probe'.1 ≠ 0 ∨ json_loads env probe'.2 = None →
            parsed_probe env probe' = PyNone) as Hparsed.
    { unfold parsed_probe. intros [Hne | ->].
      - apply Z.eqb_neq in Hne. by rewrite Hne.
      - by destruct (negb _). }
    destruct delete_source.
    + unfold os_remove. unfold_core.
      repeat case_match; simplify_eq; cbn [fst];
        (eexists; split; [done|]);
        repeat (split; [by simplify_map_eq|]);
        intros H'; rewrite <- (Hparsed H'); by simplify_map_eq.
    + eexists; split; [done|].
      repeat (split; [by simplify_map_eq|]).
      intros H'; rewrite <- (Hparsed H'); by simplify_map_eq.
Qed.

Lemma compress_audio_postconditions_witness :
  (∃ info,
     (compress_audio (env_with encoder_fails None) "d/Talk1.mp3" "d/Talk/Talk1.mp3"
        false world_talks).1 = Ret (false, info)
     ∧ info !! "error" = Some (PyStr "Invalid data found when processing input"))
  ∧ (compress_audio (env_with encoder_silent None) "d/Talk1.mp3" "d/Talk/Talk1.mp3"
       false world_talks).1
    = Ret (false, {[ "error" := PyStr "Output file was not created" ]})
  ∧ (∃ info,
       (compress_audio (env_with encoder_ok None) "d/Talk1.mp3" "d/Talk/Talk1.mp3"
          false world_talks).1 = Ret (true, info)
       ∧ info !! "compression_ratio" = Some (PyFloat (inject_Z 500000 / inject_Z 1000))
       ∧ info !! "output_info" = Some PyNone).
Proof.
  split; [|split].
  - destruct (compress_audio_postconditions (env_with encoder_fails None)
                "d/Talk1.mp3" "d/Talk/Talk1.mp3" false world_talks
                500000 (0, "not json") (fs world_talks) 1
                "Invalid data found when processing input" (1 # 1) (fs world_talks))
      as [H _]; [reflexivity | discriminate | reflexivity..|].
    destruct H as (info & Hrun & Herr & _); [discriminate|].
    exists info. split; [exact Hrun | exact Herr].
  - destruct (compress_audio_postconditions (env_with encoder_silent None)
                "d/Talk1.mp3" "d/Talk/Talk1.mp3" false world_talks
                500000 (0, "not json") (fs world_talks) 0
                "" (1 # 1) (fs world_talks))
      as (_ & H & _); [reflexivity | discriminate | reflexivity..|].
    apply H; reflexivity.
  - destruct (compress_audio_postconditions (env_with encoder_ok None)
                "d/Talk1.mp3" "d/Talk/Talk1.mp3" false world_talks
                500000 (0, "not json") (fs world_talks) 0
                "" (2 # 1) (<["d/Talk/Talk1.mp3" := 1000]> (fs world_talks)))
      as (_ & _ & H); [reflexivity | discriminate | reflexivity..|].
    destruct (H eq_refl 1000 (0, "not json")) as (info & Hrun & _ & _ & Hratio & Hinfo);
      [reflexivity..|].
    exists info. split; [exact Hrun|]. split; [exact Hratio|].
    apply Hinfo. right. reflexivity.
Defined.

(** ** Deleting the source *)

Lemma prints_app l1 l2 : prints (l1 ++ l2) = prints l1 ++ prints l2.
Proof. apply omap_app. Qed.

Lemma compress_audio_prints env i o delete_source w r w' :
  compress_audio env i o delete_source w = (r, w') →
  ∃ new, trace w' = trace w ++ new ∧ prints new = [].
Proof.
  destruct w as [f tr]. unfold compress_audio. unfold_monad.
  intros H.
  repeat (case_match; simplify_eq).
  all: trace_ex; done.
Qed.

Lemma compress_audio_keeps_source env i o w :
  removals (events_of (compress_audio env i o false) w) = [].
Proof.
  destruct (compress_audio env i o false w) as [r w'] eqn:Hrun.
  destruct (compress_audio_shape _ _ _ _ _ _ Hrun) as (new & Htr & Hrem & _).
  by rewrite (events_of_eq _ _ _ _ _ Hrun Htr).
Qed.

Lemma process_single_file_deletion env task w r w' :
  process_single_file env task w = (r, w') →
  ∃ new, trace w' = trace w ++ new
    ∧ (removals new = []
       ∨ ∃ pre post, new = pre ++ EvRemove (input_file task) :: post
           ∧ EvPrint LCompressed ∈ pre ∧ removals pre = [] ∧ removals post = [])
    ∧ (removals new ≠ [] ∨ (∃ p msg, LWarnNotDeleted p msg ∈ prints new) →
       ∃ d, r = Ret d ∧ d !! "status" = Some (PyStr "success"))
    ∧ (∀ msg, (∀ f, remove_refused env (input_file task) f = Some msg) →
       removals new ≠ [] →
       LWarnNotDeleted (input_file task) msg ∈ prints new).
Proof.
  destruct w as [f tr], task as [i o name k n].
  unfold process_single_file. unfold_monad.
  cbv [input_file].
  intros H.
  repeat (case_match; simplify_eq).
  all: try match goal with
       | Hc : compress_audio _ _ _ _ _ = _ |- _ =>
           let Hc' := fresh in
           pose proof (compress_audio_prints _ _ _ _ _ _ _ Hc) as (new' & Htr' & Hpr);
           apply compress_audio_shape in Hc as (new & Htr & Hrem & _ & Hinfo);
           cbv [fs trace] in Htr, Htr'; rewrite Htr in Htr';
           apply app_inv_head in Htr' as <-;
           rewrite ?Htr
       end.
  all: trace_ex.
  all: rewrite ?removals_app, ?prints_app, ?Hrem, ?Hpr; cbn [removals prints omap list_omap app].
  all: split; [|split].
  all: try by left.
  all: try (right; eexists (new ++ [_; _; _; _; _; _]), _;
            split; [by rewrite <- (assoc_L (++))|];
            split; [rewrite elem_of_app, !elem_of_cons; by auto 10|];
            split; [by rewrite removals_app, Hrem | done]).
  all: try (intros [Hne | (? & ? & Hin)];
            [ first [ by destruct Hne
                    | by (eexists; split; [done | by simplify_map_eq]) ]
            | first [ by (eexists; split; [done | by simplify_map_eq])
                    | exfalso;
                      repeat (apply elem_of_cons in Hin as [Hin|Hin]; [discriminate|]);
                      by apply elem_of_nil in Hin ] ]).
  all: intros ? Hall Hne; try by destruct Hne.
  all: match goal with
       | Hr : remove_refused _ _ _ = _ |- _ => rewrite Hall in Hr; simplify_eq
       end.
  all: rewrite !elem_of_cons; by auto 20.
Qed.

(** C6 (amended): in the bulk pipeline the source file is deleted by
    [process_single_file], the caller, and not by [compress_audio], which
    it calls with [delete_source=False]; [os.remove] is called at most once
    per task, on the input of that task, after the success has been
    reported, and only when the outcome is [success]; when [os.remove]
    refuses, a warning is printed and the outcome stays [success].
    (Called with [delete_source=True], its default, [compress_audio] deletes
    the source itself.) *)
Theorem source_deletion env task w :
  (∀ i o w1, removals (events_of (compress_audio env i o false) w1) = [])
  ∧ (removals (events_of (process_single_file env task) w) = []
     ∨ ∃ pre post,
         events_of (process_single_file env task) w
           = pre ++ EvRemove (input_file task) :: post
         ∧ EvPrint LCompressed ∈ pre ∧ removals pre = [] ∧ removals post = [])
  ∧ (removals (events_of (process_single_file env task) w) ≠ []
     ∨ (∃ p msg, LWarnNotDeleted p msg
                   ∈ prints (events_of (process_single_file env task) w)) →
     ∃ d, (process_single_file env task w).1 = Ret d
          ∧ d !! "status" = Some (PyStr "success"))
  ∧ (∀ msg, (∀ f, remove_refused env (input_file task) f = Some msg) →
     removals (events_of (process_single_file env task) w) ≠ [] →
     LWarnNotDeleted (input_file task) msg
       ∈ prints (events_of (process_single_file env task) w)).
Proof.
  split; [intros; apply compress_audio_keeps_source|].
  destruct (process_single_file env task w) as [r w'] eqn:Hrun.
  destruct (process_single_file_deletion _ _ _ _ _ Hrun) as (new & Htr & H1 & H2 & H3).
  by rewrite (events_of_eq _ _ _ _ _ Hrun Htr).
Qed.

(** C6, as stated, fails: called with its default [delete_source=True], as
    the single-file mode calls it, [compress_audio] removes the source file
    itself. *)
Lemma compress_audio_deletes_source :
  fs world_talks !! "d/Talk1.mp3" = Some 500000
  ∧ removals (events_of (compress_audio (env_with encoder_ok None)
                           "d/Talk1.mp3" "d/Talk/Talk1.mp3" true) world_talks)
    = ["d/Talk1.mp3"]
  ∧ fs (compress_audio (env_with encoder_ok None)
          "d/Talk1.mp3" "d/Talk/Talk1.mp3" true world_talks).2 !! "d/Talk1.mp3" = None.
Proof. split; [|split]; vm_compute; reflexivity. Qed.

(** When [os.remove] refuses, the file is still reported as a success. *)
Example refused_deletion_is_success :
  ∃ d w', process_single_file (env_with encoder_ok (Some "Permission denied"))
            task_talk1 world_talks = (Ret d, w')
    ∧ d !! "status" = Some (PyStr "success")
    ∧ prints (drop 4 (trace w'))
      = [LHeader 1 3 "Talk1.mp3"; LBaseName "Talk"; LOutput "Talk" "Talk1.mp3";
         LCompressed; LSize (PyInt 500000) (PyInt 1000);
         LCompression (PyFloat (inject_Z 500000 / inject_Z 1000));
         LWarnNotDeleted "d/Talk1.mp3" "Permission denied"; LBlank]
    ∧ fs w' !! "d/Talk1.mp3" = Some 500000.
Proof.
  eexists _, _. split; [vm_compute; reflexivity|].
  split; [|split]; vm_compute; reflexivity.
Qed.

Lemma source_deletion_witness :
  LWarnNotDeleted "d/Talk1.mp3" "Permission denied"
    ∈ prints (events_of (process_single_file
                           (env_with encoder_ok (Some "Permission denied")) task_talk1)
                world_talks)
  ∧ ∃ d, (process_single_file (env_with encoder_ok (Some "Permission denied"))
            task_talk1 world_talks).1 = Ret d
         ∧ d !! "status" = Some (PyStr "success").
Proof.
  destruct (source_deletion (env_with encoder_ok (Some "Permission denied"))
              task_talk1 world_talks) as (_ & _ & Hsuccess & Hwarn).
  assert (removals (events_of (process_single_file
                                 (env_with encoder_ok (Some "Permission denied"))
                                 task_talk1) world_talks) ≠ []) as Hremoved
    by (vm_compute; discriminate).
  split.
  - apply (Hwarn "Permission denied"); [reflexivity | exact Hremoved].
  - apply Hsuccess. left. exact Hremoved.
Defined.

(** ** Aggregation *)

Lemma aggregate_future_ok results future :
  future_ok future →
  aggregate results future =
    Results.mk
      (Results.total_files results)
      (Results.processed results +
         match future.2 with
         | Ret d => if status_is d "success" then 1 else 0
         | Raise _ => 0
         end)
      (Results.skipped results +
         match future.2 with
         | Ret d => if status_is d "skipped" then 1 else 0
         | Raise _ => 0
         end)
      (Results.failed results + match error_entry future with Some _ => 1 | None => 0 end)
      (Results.errors results ++ option_list (error_entry future))
  ∧ counted (aggregate results future) = counted results + 1.
Proof.
  destruct future as [task [d|e]], results as [n p s f errs];
    intros [new Hok]; cbn [fst snd outcome_ok] in Hok.
  - destruct Hok as (Hfile & [[Hst _] | [[Hst _] | (Hst & _ & msg & Hmsg & _)]]).
    all: unfold aggregate, error_entry, counted, status_is; cbn [fst snd].
    all: rewrite Hst, ?Hfile, ?Hmsg; cbn.
    all: try destruct (d !! "error"); cbn.
    all: rewrite ?Z.add_0_r, ?(right_id_L [] (++)).
    all: split; [done | lia].
  - unfold aggregate, error_entry, counted, unexpected_error. cbn.
    rewrite ?Z.add_0_r. split; [done | lia].
Qed.

Lemma foldl_aggregate results futures :
  Forall future_ok futures →
  let final := foldl aggregate results futures in
  Results.total_files final = Results.total_files results
  ∧ counted final = counted results + Z.of_nat (length futures)
  ∧ Results.errors final = Results.errors results ++ omap error_entry futures
  ∧ Results.failed final =
      Results.failed results + Z.of_nat (length (omap error_entry futures)).
Proof.
  intros Hall. revert results.
  induction Hall as [|future futures Hok _ IH]; intros results; cbn zeta.
  - cbn. rewrite (right_id_L [] (++)). repeat split; try done; lia.
  - cbn [foldl]. destruct (IH (aggregate results future)) as (IH1 & IH2 & IH3 & IH4).
    destruct (aggregate_future_ok results future Hok) as [Hagg Hcount].
    rewrite IH1, IH2, IH3, IH4, Hcount. rewrite Hagg at 1 2 3.
    cbn [Results.total_files Results.errors Results.failed omap list_omap].
    destruct (error_entry future);
      cbn [option_list length app]; rewrite <- ?(assoc_L (++));
      repeat split; try done; lia.
Qed.

Lemma foldl_aggregate_each results futures :
  Forall future_ok futures →
  let final := foldl aggregate results futures in
  Results.processed final =
    Results.processed results + Z.of_nat (length (returned "success" futures))
  ∧ Results.skipped final =
      Results.skipped results + Z.of_nat (length (returned "skipped" futures)).
Proof.
  intros Hall. revert results. unfold returned.
  induction Hall as [|future futures Hok _ IH]; intros results; cbn zeta.
  - cbn. lia.
  - cbn [foldl]. destruct (IH (aggregate results future)) as (IH1 & IH2).
    destruct (aggregate_future_ok results future Hok) as [Hagg _].
    rewrite IH1, IH2. rewrite Hagg at 1 2.
    cbn [Results.processed Results.skipped List.filter].
    destruct future as [task [d|e]]; cbn [snd].
    + destruct (status_is d "success"), (status_is d "skipped");
        cbn [length]; lia.
    + lia.
Qed.

Lemma returned_Permutation s (l l' : list Future) :
  l ≡ₚ l' → length (returned s l) = length (returned s l').
Proof.
  unfold returned. induction 1 as [|x l l' _ IH|x y l|l l' l'' _ IH1 _ IH2];
    cbn [List.filter]; repeat case_match; cbn [length]; lia.
Qed.

Lemma omap_length_Permutation {A B} (f : A → option B) (l l' : list A) :
  l ≡ₚ l' → length (omap f l) = length (omap f l').
Proof.
  induction 1 as [|x l l' _ IH|x y l|l l' l'' _ IH1 _ IH2];
    cbn [omap list_omap]; repeat case_match; cbn [length]; lia.
Qed.

Lemma run_tasks_spec env tasks w :
  (run_tasks env tasks w).1.*1 = tasks
  ∧ Forall future_ok (run_tasks env tasks w).1.
Proof.
  revert w. induction tasks as [|task tasks IH]; intros w; [done|].
  cbn [run_tasks].
  destruct (process_single_file env task w) as [r w1] eqn:Hp.
  destruct (run_tasks env tasks w1) as [futures w2] eqn:Hr.
  specialize (IH w1). rewrite Hr in IH. destruct IH as [IH1 IH2].
  cbn [fst fmap list_fmap] in *. split; [by rewrite IH1|].
  constructor; [|done].
  apply process_single_file_shape in Hp as (new & _ & Hok). by exists new.
Qed.

Lemma bulk_compress_runs env source_directory max_workers w :
  get_mp3_files (scandir env) (glob_dirs env) source_directory ≠ [] →
  0 < max_workers →
  let audio_files := get_mp3_files (scandir env) (glob_dirs env) source_directory in
  let tasks := file_tasks source_directory audio_files in
  bulk_compress env source_directory max_workers w =
    (Ret (BulkReport
            (foldl aggregate (Results.mk (length audio_files) 0 0 0 [])
               (as_completed env (run_tasks env tasks w).1))),
     (run_tasks env tasks w).2).
Proof.
  intros Hne Hw. cbn zeta. unfold bulk_compress.
  destruct (get_mp3_files (scandir env) (glob_dirs env) source_directory) as [|p files] eqn:Hf; [done|].
  destruct (max_workers <=? 0) eqn:Hm; [apply Z.leb_le in Hm; lia|].
  cbv [mbind M_bind mret M_ret].
  by destruct (run_tasks env _ w).
Qed.

Lemma length_file_tasks directory audio_files :
  length (file_tasks directory audio_files) = length audio_files.
Proof. unfold file_tasks, enumerate1. by rewrite length_fmap, length_imap. Qed.

(** C1: a bulk run over a directory with at least one candidate file
    returns a report, whatever the order in which the outcomes complete
    and are aggregated, and in it processed + skipped + failed equals
    total_files, the number of discovered files.  Every file is counted
    once, in one counter: [processed] counts the futures that returned
    [success], [skipped] those that returned [skipped], and [failed] those
    that returned [failed] or raised. *)
Theorem bulk_compress_counts env source_directory max_workers w :
  (∀ l, as_completed env l ≡ₚ l) →
  get_mp3_files (scandir env) (glob_dirs env) source_directory ≠ [] →
  0 < max_workers →
  ∃ results w',
    bulk_compress env source_directory max_workers w = (Ret (BulkReport results), w')
    ∧ Results.total_files results = length (get_mp3_files (scandir env) (glob_dirs env) source_directory)
    ∧ Results.processed results + Results.skipped results + Results.failed results
      = Z.of_nat (Results.total_files results)
    ∧ (let futures :=
         (run_tasks env
            (file_tasks source_directory (get_mp3_files (scandir env) (glob_dirs env) source_directory))
            w).1 in
       Results.processed results = Z.of_nat (length (returned "success" futures))
       ∧ Results.skipped results = Z.of_nat (length (returned "skipped" futures))
       ∧ Results.failed results = Z.of_nat (length (omap error_entry futures))).
Proof.
  intros Hperm Hne Hw.
  eexists _, _. split; [by apply bulk_compress_runs|].
  set (files := get_mp3_files (scandir env) (glob_dirs env) source_directory).
  set (tasks := file_tasks source_directory files).
  destruct (run_tasks_spec env tasks w) as [Hfst Hall].
  rewrite <- (Hperm _) in Hall.
  destruct (foldl_aggregate (Results.mk (length files) 0 0 0 []) _ Hall)
    as (Htot & Hcount & _ & Hfailed).
  destruct (foldl_aggregate_each (Results.mk (length files) 0 0 0 []) _ Hall)
    as (Hprocessed & Hskipped).
  split; [done|]. unfold counted in Hcount.
  cbn [Results.processed Results.skipped Results.failed Results.total_files] in *.
  split.
  - rewrite Hcount, Htot.
    assert (length (run_tasks env tasks w).1 = length tasks) as Hlen
      by (rewrite <- Hfst at 2; by rewrite length_fmap).
    rewrite (Hperm _), Hlen. unfold tasks. rewrite length_file_tasks. lia.
  - rewrite Hprocessed, Hskipped, Hfailed.
    rewrite !(returned_Permutation _ _ _ (Hperm _)).
    rewrite (omap_length_Permutation _ _ _ (Hperm _)).
    repeat split; lia.
Qed.

Lemma as_completed_rev (l : list Future) : rev l ≡ₚ l.
Proof. symmetry. apply Permutation_rev. Qed.

Lemma bulk_compress_counts_witness :
  ∃ results w',
    bulk_compress (env_with encoder_ok None) "d" 2 world_talks
      = (Ret (BulkReport results), w')
    ∧ Results.total_files results = length (get_mp3_files listing_talks (λ _, []) "d")
    ∧ Results.processed results + Results.skipped results + Results.failed results
      = Z.of_nat (Results.total_files results).
Proof.
  assert (get_mp3_files listing_talks (λ _, []) "d" ≠ []) as Hfiles by discriminate.
  pose proof (bulk_compress_counts (env_with encoder_ok None) "d" 2 world_talks
                as_completed_rev Hfiles eq_refl) as H.
  destruct H as (results & w' & Hrun & Htotal & Hsum & _).
  exists results, w'. split; [exact Hrun|]. split; [exact Htotal | exact Hsum].
Defined.

(** C2: in bulk mode a failure never aborts the batch.  The report is
    returned, every task has its outcome, and each failed file, whether the
    worker returned the status [failed] or raised, is in the error list with
    its own file name and its own, non-empty message; the error list holds
    nothing else and is as long as the counter [failed]. *)
Theorem bulk_compress_failures env source_directory max_workers w :
  (∀ l, as_completed env l ≡ₚ l) →
  get_mp3_files (scandir env) (glob_dirs env) source_directory ≠ [] →
  0 < max_workers →
  let tasks := file_tasks source_directory (get_mp3_files (scandir env) (glob_dirs env) source_directory) in
  let futures := (run_tasks env tasks w).1 in
  ∃ results w',
    bulk_compress env source_directory max_workers w = (Ret (BulkReport results), w')
    ∧ futures.*1 = tasks
    ∧ (∀ task d, (task, Ret d) ∈ futures → d !! "status" = Some (PyStr "failed") →
         ∃ msg, d !! "error" = Some (PyStr msg) ∧ msg ≠ ""
           ∧ {[ "file" := PyStr (filename task); "error" := PyStr msg ]}
               ∈ Results.errors results)
    ∧ (∀ task e, (task, Raise e) ∈ futures →
         {[ "file" := PyStr (filename task);
            "error" := PyStr ("Unexpected error: " +:+ exn_str e) ]}
           ∈ Results.errors results)
    ∧ (∀ entry, entry ∈ Results.errors results →
         ∃ task msg, task ∈ tasks ∧ msg ≠ ""
           ∧ entry = {[ "file" := PyStr (filename task); "error" := PyStr msg ]})
    ∧ Z.of_nat (length (Results.errors results)) = Results.failed results.
Proof.
  intros Hperm Hne Hw tasks futures.
  eexists _, _. split; [by apply bulk_compress_runs|].
  destruct (run_tasks_spec env tasks w) as [Hfst Hall]. fold futures in Hfst, Hall.
  split; [done|].
  assert (Forall future_ok (as_completed env futures)) as Hall'
    by by rewrite (Hperm _).
  set (files := get_mp3_files (scandir env) (glob_dirs env) source_directory) in *.
  destruct (foldl_aggregate (Results.mk (length files) 0 0 0 []) _ Hall')
    as (_ & _ & Herrs & Hfailed).
  fold tasks futures. cbn [Results.errors Results.failed app] in Herrs, Hfailed.
  rewrite Herrs, Hfailed.
  assert (∀ entry, entry ∈ omap error_entry (as_completed env futures) ↔
            ∃ future, future ∈ futures ∧ error_entry future = Some entry) as Hin.
  { intros entry. rewrite list_elem_of_omap. by setoid_rewrite (Hperm futures). }
  rewrite Forall_forall in Hall.
  split; [|split; [|split]].
  - intros task d Hfut Hst.
    destruct (Hall _ Hfut) as [new Hok]. cbn [fst snd outcome_ok] in Hok.
    destruct Hok as (_ & [[? _] | [[? _] | (_ & _ & msg & Hmsg & Hne')]]); [congruence..|].
    exists msg. split; [done|]. split; [done|].
    apply Hin. exists (task, Ret d). split; [done|].
    unfold error_entry. by rewrite Hst, Hmsg.
  - intros task e Hfut. apply Hin. by exists (task, Raise e).
  - intros entry ([task [d|e]] & Hfut & Hentry)%Hin.
    + assert (task ∈ tasks) as Htask.
      { rewrite <- Hfst. apply list_elem_of_fmap. by exists (task, Ret d). }
      destruct (Hall _ Hfut) as [new Hok]. cbn [fst snd outcome_ok] in Hok.
      unfold error_entry in Hentry.
      destruct Hok as (_ & [[Hst _] | [[Hst _] | (Hst & _ & msg & Hmsg & Hne')]]);
        rewrite Hst in Hentry; [by destruct (d !! "error").. |].
      rewrite Hmsg in Hentry. cbn in Hentry. injection Hentry as <-.
      by exists task, msg.
    + assert (task ∈ tasks) as Htask.
      { rewrite <- Hfst. apply list_elem_of_fmap. by exists (task, Raise e). }
      cbn in Hentry. injection Hentry as <-.
      by exists task, ("Unexpected error: " +:+ exn_str e).
  - lia.
Qed.

Lemma bulk_compress_failures_witness :
  ∃ results w',
    bulk_compress (env_with encoder_fails None) "d" 2 world_talks
      = (Ret (BulkReport results), w')
    ∧ ∀ entry, entry ∈ Results.errors results →
        ∃ task msg, task ∈ file_tasks "d" (get_mp3_files listing_talks (λ _, []) "d") ∧ msg ≠ ""
          ∧ entry = {[ "file" := PyStr (filename task); "error" := PyStr msg ]}.
Proof.
  assert (get_mp3_files listing_talks (λ _, []) "d" ≠ []) as Hfiles by discriminate.
  pose proof (bulk_compress_failures (env_with encoder_fails None) "d" 2 world_talks
                as_completed_rev Hfiles eq_refl) as H.
  cbv zeta in H.
  destruct H as (results & w' & Hrun & _ & _ & _ & Hentries & _).
  exists results, w'. split; [exact Hrun | exact Hentries].
Defined.

(** ** More on the transcode invoker *)






(** ** More on the single-item processor *)



(** ** Further properties of the invoker and of the processor *)


















(** ** Further properties of the naming resolver and of file discovery *)

Section NamingFacts.

Implicit Types (s t : string) (c : ascii) (f : ascii → bool).






End NamingFacts.







